(** * DentAI Pro: a shallow embedding of the analysis pipeline

    The development follows the four Python modules of the application:
    - [ui_components.py]   : the static diagnosis tables and the [ImageCard];
    - [model_handler.py]   : [ModelHandler] (inference) and [PredictionWorker];
    - [main_window.py]     : the batch controller ([DentalXRayAnalyzer]);
    - [report_generator.py]: [ReportGenerator] and [prepare_case_data].

    Python exceptions are modelled by a small error monad, dictionaries by
    stdpp's [gmap], Qt signals by an explicit list of delivered signals and
    the widgets by the records of the values the code reads and writes.
    Library code (torch, PIL, reportlab, the file system) enters through
    Section variables. Confidences are Python floats in the program; the
    embedding keeps them as rationals ([Q]), which is exact for the only
    arithmetic the application itself performs on them (the sentinel [0.0]
    and the multiplication by [100]). *)

From Stdlib Require Import ZArith QArith Lia Ascii String Sorted.
From stdpp Require Import base option list strings pretty gmap fin_maps.

Set Warnings "-register-all".

Local Open Scope Z_scope.
Local Open Scope string_scope.

(** ** Python exceptions and fallible computations *)

Module Py.

Inductive exn : Type :=
| IndexError (msg : string)
| KeyError (key : string)
| ValueError (msg : string)
| FileNotFoundError (msg : string)
| RuntimeError (msg : string)
| OSError (msg : string)
| ZeroDivisionError (msg : string)
| LayoutError (msg : string).

(** [str(e)] as used in the log and dialog messages. A [KeyError] prints
    the [repr] of its key. *)
Definition str_exn (e : exn) : string :=
  match e with
  | IndexError m | ValueError m | FileNotFoundError m
  | RuntimeError m | OSError m | ZeroDivisionError m | LayoutError m => m
  | KeyError k => "'" ++ k ++ "'"
  end.

Inductive result (A : Type) : Type :=
| OK (a : A)
| Raise (e : exn).
Global Arguments OK {A} a.
Global Arguments Raise {A} e.

(** Sequencing: the first exception raised ends the computation. The
    instances give the notations [x ← m; k] and [mret]. *)
Global Instance result_ret : MRet result := fun A a => OK a.
Global Instance result_bind : MBind result := fun A B k m =>
  match m with
  | OK a => k a
  | Raise e => Raise e
  end.

(** [try: body except Exception as e: handler e] *)
Definition try_except {A} (body : result A) (handler : exn -> A) : A :=
  match body with
  | OK a => a
  | Raise e => handler e
  end.

Definition returns {A} (m : result A) : Prop := exists a, m = OK a.

(** [l[i]] for a non-negative literal index. *)
Definition index {A} (l : list A) (i : nat) : result A :=
  match l !! i with
  | Some a => OK a
  | None => Raise (IndexError "list index out of range")
  end.

(** [d[k]] on a dictionary with string keys. *)
Definition getitem {V} (d : gmap string V) (k : string) : result V :=
  match d !! k with
  | Some v => OK v
  | None => Raise (KeyError k)
  end.

(** [d.get(k, default)] *)
Definition get {V} (d : gmap string V) (k : string) (default : V) : V :=
  match d !! k with
  | Some v => v
  | None => default
  end.

(** A [for] loop whose body may raise, threading an accumulator. *)
Fixpoint for_each {A S} (body : S -> A -> result S) (s : S) (l : list A)
  : result S :=
  match l with
  | [] => OK s
  | x :: l' => s' ← body s x; for_each body s' l'
  end.

(** [[f x for x in l]] where [f] may raise. *)
Fixpoint comprehension {A B} (f : A -> result B) (l : list A)
  : result (list B) :=
  match l with
  | [] => OK []
  | x :: l' =>
      y ← f x; ys ← comprehension f l'; mret (y :: ys)
  end.

End Py.

(** ** [str.lower] and [str.title]

    Strings are byte strings. Case conversion acts on the ASCII letters; the
    diagnosis labels of the application are ASCII, and the bytes of any
    multi-byte character are left as they are. *)

Module Str.

Definition is_upper (c : ascii) : bool :=
  let n := nat_of_ascii c in (65 <=? n)%nat && (n <=? 90)%nat.
Definition is_lower (c : ascii) : bool :=
  let n := nat_of_ascii c in (97 <=? n)%nat && (n <=? 122)%nat.
Definition is_cased (c : ascii) : bool := is_upper c || is_lower c.

Definition lower_char (c : ascii) : ascii :=
  if is_upper c then ascii_of_nat (nat_of_ascii c + 32) else c.
Definition upper_char (c : ascii) : ascii :=
  if is_lower c then ascii_of_nat (nat_of_ascii c - 32) else c.

Fixpoint lower (s : string) : string :=
  match s with
  | EmptyString => EmptyString
  | String c s' => String (lower_char c) (lower s')
  end.

(** [title]: a cased character that follows an uncased one (or starts the
    string) is upper-cased, every other cased character is lower-cased. *)
Fixpoint title_from (prev_cased : bool) (s : string) : string :=
  match s with
  | EmptyString => EmptyString
  | String c s' =>
      String (if prev_cased then lower_char c else upper_char c)
             (title_from (is_cased c) s')
  end.
Definition title (s : string) : string := title_from false s.

End Str.

(** ** [ui_components.DiagnosisData]: the static knowledge base *)

Module DiagnosisData.

Definition findings_items : list (string * list (string * string)) :=
  [ ("nil control",
      [ ("✅", "Normal periapical appearance");
        ("🦷", "Intact lamina dura");
        ("📏", "Normal periodontal ligament space width");
        ("🔬", "Healthy bone trabeculation");
        ("✨", "No pathological findings");
        ("🌿", "Normal root morphology") ]);
    ("condensing osteitis",
      [ ("🔍", "Increased bone density around apex");
        ("⭕", "Well-defined radioopaque lesion");
        ("🔥", "Associated with chronic low-grade inflammation");
        ("🦴", "Localized sclerotic bone reaction");
        ("😶", "Usually asymptomatic");
        ("📍", "Commonly seen in mandibular posterior teeth") ]);
    ("diffuse lesion",
      [ ("⚠️", "Poorly defined radiolucent area");
        ("↔️", "Irregular borders");
        ("📐", "Variable size and shape");
        ("🦷", "May involve multiple teeth");
        ("🔨", "Possible bone destruction pattern");
        ("❓", "Unclear demarcation from healthy bone") ]);
    ("periapical abcess",
      [ ("🎯", "Well-defined radiolucent area at apex");
        ("💔", "Disrupted lamina dura");
        ("📏", "Widened periodontal ligament space");
        ("🦴", "Evidence of bone destruction");
        ("↔️", "May show diffuse borders in acute phase");
        ("💀", "Associated with non-vital tooth") ]);
    ("periapical granuloma",
      [ ("⭕", "Small round/oval radiolucency at apex");
        ("📏", "Well-defined borders");
        ("📊", "Size typically < 1cm in diameter");
        ("💔", "Loss of lamina dura");
        ("💀", "Associated with non-vital tooth");
        ("🔍", "Uniform radiolucent appearance") ]);
    ("periapical widening",
      [ ("📏", "Increased PDL space width");
        ("⚡", "Early stage of periapical pathology");
        ("↔️", "Continuous with periodontal ligament");
        ("🔥", "May indicate pulpal inflammation");
        ("📊", "Usually uniform widening");
        ("🦷", "Intact lamina dura") ]);
    ("pericoronitis",
      [ ("🦷", "Partially erupted tooth (usually third molar)");
        ("🔬", "Soft tissue opacification over crown");
        ("⚠️", "Possible bone loss around crown");
        ("📏", "Widened follicular space");
        ("📍", "May show impaction pattern");
        ("✅", "Adjacent bone appears normal") ]);
    ("radicular cyst",
      [ ("⭕", "Large well-defined radiolucency");
        ("📏", "Usually > 1cm in diameter");
        ("🔲", "Corticated border");
        ("⭕", "Round or oval shape");
        ("↗️", "May cause root displacement");
        ("💀", "Associated with non-vital tooth") ]) ].

Definition recommendations_items : list (string * list (string * string)) :=
  [ ("nil control",
      [ ("📅", "Regular dental check-ups every 6 months");
        ("🦷", "Maintain good oral hygiene");
        ("📸", "Routine radiographic monitoring");
        ("📚", "Patient education on preventive care") ]);
    ("condensing osteitis",
      [ ("⚡", "Pulp vitality testing required");
        ("🦷", "Evaluate need for endodontic treatment");
        ("🔍", "Regular monitoring of bone density");
        ("📊", "Assessment of adjacent teeth");
        ("📅", "Follow-up in 3 months") ]);
    ("diffuse lesion",
      [ ("🔍", "Comprehensive clinical examination needed");
        ("📸", "Consider CBCT imaging");
        ("🔬", "Biopsy may be necessary");
        ("👥", "Specialist consultation recommended");
        ("📅", "Close monitoring required") ]);
    ("periapical abcess",
      [ ("⚡", "Immediate endodontic intervention required");
        ("💊", "Consider antibiotic prescription");
        ("🔨", "Possible incision and drainage");
        ("🦷", "Root canal treatment needed");
        ("📅", "Short-term follow-up essential") ]);
    ("periapical granuloma",
      [ ("🦷", "Root canal treatment indicated");
        ("🔍", "Regular radiographic monitoring");
        ("📅", "Follow-up every 3-6 months");
        ("📊", "Assessment of healing progress");
        ("👥", "Endodontist consultation if needed") ]);
    ("periapical widening",
      [ ("⚡", "Pulp vitality testing essential");
        ("🔍", "Identify cause of inflammation");
        ("🦷", "Consider occlusal adjustment");
        ("📅", "Regular monitoring needed");
        ("📊", "Track changes over time") ]);
    ("pericoronitis",
      [ ("🧼", "Local irrigation and debridement");
        ("💊", "Antibiotics if systemically involved");
        ("💉", "Pain management required");
        ("✂️", "Consider surgical extraction");
        ("📅", "Short-term follow-up needed") ]);
    ("radicular cyst",
      [ ("🦷", "Root canal treatment required");
        ("✂️", "Surgical enucleation may be needed");
        ("🔬", "Histopathological examination");
        ("📸", "Regular radiographic monitoring");
        ("👥", "Oral surgeon consultation recommended") ]) ].

(** One entry of [MANAGEMENT_MAP]: a dictionary with the two keys
    ["Immediate Action"] and ["Long-term Plan"]. *)
Definition plan (immediate long_term : list string) : gmap string (list string) :=
  list_to_map [ ("Immediate Action", immediate); ("Long-term Plan", long_term) ].

Definition management_items : list (string * gmap string (list string)) :=
  [ ("nil control",
      plan [ "• Document baseline radiographic appearance";
             "• Record current dental status";
             "• Check oral hygiene status" ]
           [ "• Regular dental check-ups";
             "• Preventive care measures";
             "• Patient education" ]);
    ("condensing osteitis",
      plan [ "• Pulp vitality testing";
             "• Pain assessment";
             "• Evaluate need for endodontic treatment" ]
           [ "• Monitor bone density changes";
             "• Regular radiographic assessment";
             "• Address primary inflammation source" ]);
    ("diffuse lesion",
      plan [ "• Comprehensive examination";
             "• Additional imaging (CBCT)";
             "• Consider biopsy" ]
           [ "• Regular monitoring";
             "• Specialist referral if needed";
             "• Treatment based on biopsy results" ]);
    ("periapical abcess",
      plan [ "• Emergency drainage if needed";
             "• Antibiotic prescription";
             "• Pain management" ]
           [ "• Complete root canal treatment";
             "• Regular follow-up";
             "• Monitor healing progress" ]);
    ("periapical granuloma",
      plan [ "• Start root canal treatment";
             "• Pain management if needed";
             "• Assess tooth restorability" ]
           [ "• Complete endodontic therapy";
             "• Regular radiographic assessment";
             "• Monitor healing" ]);
    ("periapical widening",
      plan [ "• Pulp vitality testing";
             "• Identify inflammation cause";
             "• Occlusal analysis" ]
           [ "• Monitor PDL width changes";
             "• Regular follow-up";
             "• Address contributing factors" ]);
    ("pericoronitis",
      plan [ "• Local debridement";
             "• Prescribe antibiotics if needed";
             "• Pain management" ]
           [ "• Evaluate for extraction";
             "• Improve oral hygiene";
             "• Regular monitoring" ]);
    ("radicular cyst",
      plan [ "• Start root canal treatment";
             "• Plan surgical intervention";
             "• Pain management if needed" ]
           [ "• Complete endodontic therapy";
             "• Surgical enucleation";
             "• Regular radiographic monitoring" ]) ].

Definition FINDINGS_MAP : gmap string (list (string * string)) :=
  list_to_map findings_items.
Definition RECOMMENDATIONS_MAP : gmap string (list (string * string)) :=
  list_to_map recommendations_items.
Definition MANAGEMENT_MAP : gmap string (gmap string (list string)) :=
  list_to_map management_items.

(** The eight diagnosis labels the tables are keyed by. *)
Definition known_labels : list string := findings_items.*1.

End DiagnosisData.

(** ** Data shared by the four modules *)

(** A prediction list: [(label, confidence)] pairs. *)
Definition Predictions : Type := list (string * Q).

(** The fallback result [[("Error", 0.0)]] that [predict] and
    [PredictionWorker.run] produce when inference fails. *)
Definition error_result : Predictions := [("Error", 0%Q)].

(** Truth value of a Python list: a list is true when it is not empty. *)
Definition truthy {A} (l : list A) : bool :=
  match l with [] => false | _ :: _ => true end.

(** What a card shows. Layout and style sheets carry no data and are left
    out; a group box keeps its title and its children. *)
Inductive Widget : Type :=
| ImageLabel (path : string)
| Label (text : string)
| GroupBox (title : string) (children : list Widget).

Record ImageCard : Type := mkImageCard {
  image_path : string;
  predictions : Predictions;
  primary_diagnosis : string;
  container : list Widget
}.

(** Qt signals of a [PredictionWorker]. *)
Inductive Signal : Type :=
| finished (results : Predictions) (path : string)
| error (message : string).

Record PredictionWorker : Type := mkWorker {
  worker_image_path : string;
  top_k : Z;
  isFinished : bool
}.

(** [QProgressBar]: the four properties the controller uses. *)
Record QProgressBar : Type := mkBar {
  minimum : Z;
  maximum : Z;
  value : Z;
  visible : bool
}.

Inductive Dialog : Type :=
| warning (title text : string)
| critical (title text : string)
| information (title text : string).

(** The main window: the progress bar, the cards of the grid layout in
    order (the trailing stretch item of the layout is implicit, so
    [grid_layout.count()] is [length grid + 1]), the workers and the message
    boxes shown so far. *)
Record DentalXRayAnalyzer : Type := mkWindow {
  progress_bar : QProgressBar;
  grid : list ImageCard;
  workers : list PredictionWorker;
  dialogs : list Dialog
}.

(** [torch.nn.Module]: its parameters and buffers, and the training flag
    that [eval()] clears. *)
Record Module (Weights : Type) : Type := mkModule {
  weights : Weights;
  training : bool
}.
Arguments mkModule {Weights} _ _.
Arguments weights {Weights} _.
Arguments training {Weights} _.

Record ModelHandler (Weights : Type) : Type := mkHandler {
  model_path : string;
  class_names : list string;
  model : Module Weights
}.
Arguments mkHandler {Weights} _ _ _.
Arguments model_path {Weights} _.
Arguments class_names {Weights} _.
Arguments model {Weights} _.

(** reportlab flowables of the report's story. Table styles are left out. *)
Inductive Flowable : Type :=
| Paragraph (text style : string)
| Spacer (width height : Z)
| Image (data : string) (width height : Z)
| Table (rows : list (list Flowable)) (colWidths : list Z).

(** The dictionary built by [prepare_case_data]. [_add_case] tests the keys
    ['management'] and ['recommendations'] for presence, so these two are
    optional fields; the other keys are read unconditionally. *)
Record Case : Type := mkCase {
  case_image_path : string;
  diagnosis : string;
  confidence : Q;
  findings : list string;
  recommendations : option (list (string * string));
  management : option (gmap string (list string))
}.

(** ** A small instance of the library functions

    Used to run the definitions below on concrete inputs: a file named
    [corrupt.png] cannot be decoded, the forward pass fails on [huge.png],
    the network in evaluation mode returns its weights as logits and in
    training mode rotates them by the state of the generator, [softmax]
    normalises positive scores and [topk] sorts by insertion; [tall.png]
    is a portrait image that does not fit the page of the report. *)

Module Toy.

Definition format_1f (q : Q) : string :=
  let tenths := Qnum q * 10 / Zpos (Qden q) in
  pretty (tenths / 10) ++ "." ++ pretty (tenths mod 10).

Definition open_rgb (path : string) : Py.result string :=
  if decide (path = "corrupt.png")
  then Py.Raise (Py.OSError "cannot identify image file")
  else Py.OK path.

Definition transform (pixels : string) : Py.result string := Py.OK pixels.

Definition path_exists (path : string) : bool :=
  bool_decide (path = "initial_model.pth").

Definition torch_load (path : string) : Py.result (gmap string (list Q)) :=
  Py.OK {[ "model_state_dict" := [1; 5; 2; 8; 1; 1; 1; 1]%Q ]}.

Definition load_state_dict (sd : list Q) : Py.result (list Q) :=
  if decide (length sd = 8%nat) then Py.OK sd
  else Py.Raise (Py.RuntimeError "size mismatch").

Definition net_eval (w : list Q) (t : string) : Py.result (list Q) :=
  if decide (t = "huge.png")
  then Py.Raise (Py.RuntimeError "out of memory")
  else Py.OK w.

Definition net_train (w : list Q) (g : nat) (t : string)
  : Py.result (list Q) * list Q * nat :=
  (Py.OK (rotate g w), w, S g).

Definition softmax (l : list Q) : list Q :=
  let total := foldr Qplus 0%Q l in
  map (fun x => Qred (x / total)) l.

Fixpoint insert_desc (x : Q * nat) (l : list (Q * nat)) : list (Q * nat) :=
  match l with
  | [] => [x]
  | y :: l' => if Qle_bool y.1 x.1 then x :: l else y :: insert_desc x l'
  end.

Definition topk (l : list Q) (k : Z) : Py.result (list Q * list nat) :=
  if ((k <? 0) || (Z.of_nat (length l) <? k))%Z
  then Py.Raise (Py.RuntimeError "selected index k out of range")
  else
    let sorted := foldr insert_desc [] (zip l (seq 0 (length l))) in
    let best := take (Z.to_nat k) sorted in
    Py.OK (best.*1, best.*2).

Definition PILImage_open (path : string) : Py.result (Z * Z) :=
  if decide (path = "corrupt.png")
  then Py.Raise (Py.OSError "cannot identify image file")
  else if decide (path = "tall.png") then Py.OK (300, 600)
  else Py.OK (800, 600).

Definition save_png (img : Z * Z) : Py.result string := Py.OK "PNG".

Definition float_scale (img_width height width : Z) : Z :=
  img_width * height / width.

Definition now : string := "2024-01-01 12:00:00".

Definition can_write (path : string) : bool := true.

(** An image higher than the frame of the page (685 points) cannot be
    placed. *)
Definition layout (story : list Flowable) : Py.result unit :=
  if forallb (fun f => match f with
                       | Image _ _ height => (height <=? 685)%Z
                       | _ => true
                       end) story
  then Py.OK tt
  else Py.Raise (Py.LayoutError "Flowable too large on page").

(** The window as [setup_ui] leaves it: Qt's default range 0..100 with the
    value reset, the bar hidden, no cards. *)
Definition window : DentalXRayAnalyzer :=
  mkWindow (mkBar 0 100 (-1) false) [] [] [].

End Toy.

(** ** The application *)

Section DentAI.

(** *** What the libraries provide *)

(** Python's [f"{x:.1f}"]. *)
Variable format_1f : Q -> string.

(** PIL and albumentations, as [preprocess_image] uses them:
    [Image.open(path).convert('RGB')] followed by [np.array], and the fixed
    [Resize(224, 224)], [Normalize], [ToTensorV2] pipeline with the batch
    dimension added. Either step may raise. *)
Context {Pixels Tensor : Type}.
Variable open_rgb : string -> Py.result Pixels.
Variable transform : Pixels -> Py.result Tensor.

(** torch: the checkpoint file, the network and the two tensor functions
    that [predict] calls. [net_eval] is the forward pass of a module in
    evaluation mode. In training mode the forward pass draws the dropout
    masks from the random generator and updates the batch-norm buffers,
    so [net_train] takes and returns both. [topk] returns values and
    indices, or raises. *)
Context {StateDict Weights Rng : Type}.
Variable path_exists : string -> bool.
Variable torch_load : string -> Py.result (gmap string StateDict).
Variable load_state_dict : StateDict -> Py.result Weights.
Variable net_eval : Weights -> Tensor -> Py.result (list Q).
Variable net_train :
  Weights -> Rng -> Tensor -> Py.result (list Q) * Weights * Rng.
Variable softmax : list Q -> list Q.
Variable topk : list Q -> Z -> Py.result (list Q * list nat).

(** PIL and reportlab, as the report generator uses them: opening an image
    gives its size and pixels, saving it gives the PNG bytes;
    [float_scale img_width height width] is Python's
    [int(img_width * (height / width))], whose quotient and product are
    computed in binary floating point; the clock gives the date line of
    the header. The file system maps a path to the story of the document
    built there. [layout] is reportlab placing the flowables of a story on
    the A4 pages of the template: it raises [LayoutError] when a flowable
    does not fit the frame. [can_write] tells whether [doc.build] can
    write the file. *)
Context {Picture : Type}.
Variable PILImage_open : string -> Py.result Picture.
Variable picture_width picture_height : Picture -> Z.
Variable save_png : Picture -> Py.result string.
Variable float_scale : Z -> Z -> Z -> Z.
Variable now : string.
Variable can_write : string -> bool.
Variable layout : list Flowable -> Py.result unit.

(** *** ui_components.ImageCard *)

Definition _get_findings_for_diagnosis (primary : string)
  : list (string * string) :=
  Py.get DiagnosisData.FINDINGS_MAP primary [].

Definition _get_recommendations (primary : string)
  : list (string * string) :=
  Py.get DiagnosisData.RECOMMENDATIONS_MAP primary [].

(** [f"{icon} {text}"] *)
Definition icon_text (item : string * string) : string :=
  item.1 ++ " " ++ item.2.

(** [QPixmap(path)] does not raise on a path it cannot load (it yields a
    null pixmap), so the section always holds the image label. *)
Definition _add_image_section (path : string) : list Widget :=
  [ImageLabel path].

Definition _create_findings_group (primary : string) : Widget :=
  GroupBox "📋 Initial Radiographic Assessment"
    (map (fun f => Label (icon_text f)) (_get_findings_for_diagnosis primary)).

Definition _add_diagnosis_section (primary : string) : list Widget :=
  [ Label ("🔍 Diagnosis: " ++ Str.title primary);
    _create_findings_group primary ].

Definition confidence_score (preds : Predictions) : Py.result Q :=
  if truthy preds
  then p ← Py.index preds 0; mret (p.2 * 100)%Q
  else mret 0%Q.

Definition _add_confidence_section (preds : Predictions)
  : Py.result (list Widget) :=
  score ← confidence_score preds;
  mret [ GroupBox "" [ Label "🎯 Confidence Score";
                       Label (format_1f score ++ "%") ] ].

Definition _add_management_section (primary : string)
  : Py.result (list Widget) :=
  match DiagnosisData.MANAGEMENT_MAP !! primary with
  | None => mret []
  | Some management_data =>
      if decide (management_data = ∅) then mret []
      else
        immediate ← Py.getitem management_data "Immediate Action";
        long_term ← Py.getitem management_data "Long-term Plan";
        mret [ GroupBox "📋 Management Plan"
                 ([Label "🚨 Immediate Action Required:"]
                  ++ map Label immediate
                  ++ [Label "🎯 Long-term Management Plan:"]
                  ++ map Label long_term)%list ]
  end.

Definition _add_recommendations_section (primary : string) : list Widget :=
  let recs := _get_recommendations primary in
  if truthy recs
  then [ GroupBox "💡 Clinical Recommendations"
           (map (fun r => Label (icon_text r)) recs) ]
  else [].

Definition setup_ui (path : string) (preds : Predictions) (primary : string)
  : Py.result (list Widget) :=
  let image := _add_image_section path in
  let diag := _add_diagnosis_section primary in
  conf ← _add_confidence_section preds;
  mgmt ← _add_management_section primary;
  let recs := _add_recommendations_section primary in
  mret (image ++ diag ++ conf ++ mgmt ++ recs)%list.

(** [ImageCard.__init__] *)
Definition ImageCard_init (path : string) (preds : Predictions)
  : Py.result ImageCard :=
  primary ← (if truthy preds
             then p ← Py.index preds 0; mret (Str.lower p.1)
             else mret "unknown");
  ws ← setup_ui path preds primary;
  mret (mkImageCard path preds primary ws).

(** *** model_handler.ModelHandler *)

Definition the_class_names : list string :=
  [ "Nil control"; "condensing osteitis"; "diffuse lesion";
    "periapical abcess"; "periapical granuloma"; "periapical widening";
    "pericoronitis"; "radicular cyst" ].

(** [model.eval()] *)
Definition eval (m : Module Weights) : Module Weights :=
  mkModule (weights m) false.

(** [_initialize_model]. The freshly built network is in training mode
    and its random initial parameters are all replaced by the strict
    [load_state_dict]. The [except] clause logs and re-raises. *)
Definition _initialize_model (path : string) : Py.result (Module Weights) :=
  if negb (path_exists path)
  then Py.Raise (Py.FileNotFoundError ("Model file '" ++ path ++ "' not found!"))
  else
    checkpoint ← torch_load path;
    match checkpoint !! "model_state_dict" with
    | Some state_dict =>
        w ← load_state_dict state_dict;
        mret (eval (mkModule w true))
    | None => Py.Raise (Py.KeyError "Invalid checkpoint format")
    end.

(** [ModelHandler.__init__] *)
Definition ModelHandler_init (path : string)
  : Py.result (ModelHandler Weights) :=
  m ← _initialize_model path;
  mret (mkHandler path the_class_names m).

(** [preprocess_image]: every exception is logged and turned into [None]. *)
Definition preprocess_image (path : string) : option Tensor :=
  Py.try_except
    (image_array ← open_rgb path;
     t ← transform image_array;
     mret (Some t))
    (fun _ => None).

(** [self.model(image_tensor)]: the module's forward pass, with the state
    it leaves behind. *)
Definition forward (m : Module Weights) (g : Rng) (t : Tensor)
  : Py.result (list Q) * Module Weights * Rng :=
  if training m
  then let '(outputs, w', g') := net_train (weights m) g t in
       (outputs, mkModule w' true, g')
  else (net_eval (weights m) t, m, g).

(** [predict]. [predict_try] is the body of the [try] once the forward
    pass has returned or raised; the [except] clause replaces any
    exception by the fallback result. The handler and the generator are
    returned as the call leaves them. *)
Definition predict_try (names : list string) (outputs : Py.result (list Q))
    (k : Z) : Py.result Predictions :=
  outputs ← outputs;
  let probabilities := softmax outputs in
  '(confidences, preds) ← topk probabilities k;
  Py.comprehension
    (fun pc : nat * Q => name ← Py.index names pc.1; mret (name, pc.2))
    (zip preds confidences).

Definition predict (h : ModelHandler Weights) (g : Rng) (image_tensor : Tensor)
    (k : Z) : Predictions * ModelHandler Weights * Rng :=
  let '(outputs, m', g') := forward (model h) g image_tensor in
  let results :=
    Py.try_except (predict_try (class_names h) outputs k)
                  (fun _ => error_result) in
  (results, mkHandler (model_path h) (class_names h) m', g').

(** *** model_handler.PredictionWorker *)

(** [run]: the signals the worker emits, in order. *)
Definition run (w : PredictionWorker) (h : ModelHandler Weights) (g : Rng)
  : list Signal * ModelHandler Weights * Rng :=
  match preprocess_image (worker_image_path w) with
  | Some image_tensor =>
      let '(results, h', g') := predict h g image_tensor (top_k w) in
      ([finished results (worker_image_path w)], h', g')
  | None =>
      ([ error (Py.str_exn (Py.ValueError "Failed to preprocess image"));
         finished error_result (worker_image_path w) ], h, g)
  end.

(** *** QProgressBar

    Qt's widget: [setValue] leaves the value as it is when the new value
    lies outside the range (unless the range is 0..0); [setMaximum] sets
    the range to [min(minimum, mx) .. mx] and resets a value that the new
    range no longer contains to [minimum - 1]. *)

Definition setVisible (v : bool) (b : QProgressBar) : QProgressBar :=
  mkBar (minimum b) (maximum b) (value b) v.

Definition setValue (v : Z) (b : QProgressBar) : QProgressBar :=
  if ((value b =? v)
      || (((maximum b <? v) || (v <? minimum b))
          && negb ((maximum b =? 0) && (minimum b =? 0))))%Z
  then b
  else mkBar (minimum b) (maximum b) v (visible b).

Definition setRange (mn mx : Z) (b : QProgressBar) : QProgressBar :=
  if ((mn =? minimum b) && (mx =? maximum b))%Z then b
  else
    let mx' := Z.max mn mx in
    let v := if ((value b <? mn - 1) || (mx' <? value b))%Z
             then mn - 1 else value b in
    mkBar mn mx' v (visible b).

Definition setMaximum (mx : Z) (b : QProgressBar) : QProgressBar :=
  setRange (Z.min (minimum b) mx) mx b.

(** *** main_window.DentalXRayAnalyzer *)

Definition set_progress_bar (b : QProgressBar) (st : DentalXRayAnalyzer) :=
  mkWindow b (grid st) (workers st) (dialogs st).
Definition set_grid (g : list ImageCard) (st : DentalXRayAnalyzer) :=
  mkWindow (progress_bar st) g (workers st) (dialogs st).
Definition set_workers (ws : list PredictionWorker) (st : DentalXRayAnalyzer) :=
  mkWindow (progress_bar st) (grid st) ws (dialogs st).
Definition show (d : Dialog) (st : DentalXRayAnalyzer) :=
  mkWindow (progress_bar st) (grid st) (workers st) (dialogs st ++ [d])%list.

(** [_cleanup_workers] keeps the workers whose thread has not finished.
    [isFinished] is the state of the thread as recorded with the worker;
    the embedding does not follow the threads, so the properties below say
    nothing about the worker list after a clean-up. *)
Definition _cleanup_workers (st : DentalXRayAnalyzer) : DentalXRayAnalyzer :=
  set_workers (filter (fun w => isFinished w = false) (workers st)) st.

Definition _handle_prediction_error (error_message : string)
    (st : DentalXRayAnalyzer) : DentalXRayAnalyzer :=
  let st := show (warning "Prediction Error"
                    ("Error processing image: " ++ error_message)) st in
  set_progress_bar
    (setValue (value (progress_bar st) + 1) (progress_bar st)) st.

Definition _handle_prediction_result (preds : Predictions) (path : string)
    (st : DentalXRayAnalyzer) : DentalXRayAnalyzer :=
  Py.try_except
    (card ← ImageCard_init path preds;
     let st := set_grid (grid st ++ [card])%list st in
     let st := set_progress_bar
                 (setValue (value (progress_bar st) + 1) (progress_bar st))
                 st in
     mret (if (value (progress_bar st) =? maximum (progress_bar st))%Z
           then _cleanup_workers
                  (set_progress_bar (setVisible false (progress_bar st)) st)
           else st))
    (fun e => _handle_prediction_error (Py.str_exn e) st).

(** [_process_image]: the worker is created with the default [top_k = 3],
    connected to the two slots, recorded and started. None of these steps
    raises, so the [except] clause is not entered. *)
Definition _process_image (path : string) (st : DentalXRayAnalyzer)
  : DentalXRayAnalyzer :=
  set_workers (workers st ++ [mkWorker path 3 false])%list st.

(** [load_images], given the file names the dialog returned. *)
Definition load_images (file_names : list string) (st : DentalXRayAnalyzer)
  : DentalXRayAnalyzer :=
  if negb (truthy file_names) then st
  else
    let bar := setVisible true (progress_bar st) in
    let bar := setMaximum (Z.of_nat (length file_names)) bar in
    let bar := setValue 0 bar in
    foldl (fun st f => _process_image f st) (set_progress_bar bar st)
          file_names.

Definition clear_images (st : DentalXRayAnalyzer) : DentalXRayAnalyzer :=
  set_grid [] st.

(** The slot connected to each signal, and the window after a sequence of
    signals has been delivered to it. *)
Definition deliver (st : DentalXRayAnalyzer) (s : Signal)
  : DentalXRayAnalyzer :=
  match s with
  | finished preds path => _handle_prediction_result preds path st
  | error message => _handle_prediction_error message st
  end.

Definition deliver_all (st : DentalXRayAnalyzer) (signals : list Signal)
  : DentalXRayAnalyzer :=
  foldl deliver st signals.

Definition is_finished (s : Signal) : bool :=
  match s with finished _ _ => true | error _ => false end.
Definition is_error (s : Signal) : bool :=
  match s with finished _ _ => false | error _ => true end.

(** *** report_generator *)

(** [prepare_case_data]: the dictionary literal is evaluated key by key;
    [image_card.predictions[0][1]] raises on an empty prediction list. *)
Definition prepare_case_data (image_card : ImageCard) : Py.result Case :=
  let primary := primary_diagnosis image_card in
  p ← Py.index (predictions image_card) 0;
  mret (mkCase (image_path image_card)
               (Str.title primary)
               (p.2 * 100)%Q
               (map icon_text (_get_findings_for_diagnosis primary))
               (Some (_get_recommendations primary))
               (Some (Py.get DiagnosisData.MANAGEMENT_MAP primary ∅))).

(** Page lengths are in points ([inch = 72]). *)
Definition inch : Z := 72.

Definition _add_header (story : list Flowable) : list Flowable :=
  (story ++
   [ Table [[ Paragraph "🦷" "ReportTitle";
              Paragraph "DentAI Pro - Dental X-Ray Analysis Report"
                        "ReportTitle" ]]
           [1 * inch; 6 * inch];
     Paragraph ("Generated on: " ++ now) "Normal";
     Paragraph "Powered by AI for accurate dental pathology detection"
               "Subtitle" ])%list.

Definition _add_section (story : list Flowable) (title : string)
    (items : list string) : list Flowable :=
  let data := map (fun item => [Paragraph ("• " ++ item) "Normal"]) items in
  (story ++ [Paragraph title "SectionTitle"]
         ++ (if truthy data then [Table data [13 * inch / 2]] else [])
         ++ [Spacer 1 10])%list.

(** The image block of [_add_case]: everything between [try] and
    [except]. *)
Definition image_block (path : string) : Py.result (list Flowable) :=
  img ← PILImage_open path;
  let img_width := 400 in
  img_height ←
    (if (picture_width img =? 0)%Z
     then Py.Raise (Py.ZeroDivisionError "division by zero")
     else mret (float_scale img_width (picture_height img)
                            (picture_width img)));
  img_data ← save_png img;
  mret [Image img_data img_width img_height; Spacer 1 20].

Definition image_placeholder : Flowable :=
  Paragraph "Error: Could not load image" "Normal".

Definition _add_case (story : list Flowable) (case : Case) (case_number : nat)
  : Py.result (list Flowable) :=
  let story :=
    (story ++ [Paragraph ("Case #" ++ pretty case_number) "CaseNumber"])%list in
  let story :=
    (story ++ Py.try_except (image_block (case_image_path case))
                            (fun _ => [image_placeholder]))%list in
  let story :=
    (story ++
     [ Table [[ Paragraph ("Diagnosis: " ++ diagnosis case) "DiagnosisText";
                Paragraph ("Confidence: " ++ format_1f (confidence case) ++ "%")
                          "Normal" ]]
             [4 * inch; 3 * inch];
       Spacer 1 20 ])%list in
  let story :=
    _add_section story "Initial Radiographic Assessment" (findings case) in
  story ←
    match management case with
    | Some m =>
        immediate ← Py.getitem m "Immediate Action";
        let story := _add_section story "Immediate Action Required" immediate in
        long_term ← Py.getitem m "Long-term Plan";
        mret (_add_section story "Long-term Management Plan" long_term)
    | None => mret story
    end;
  mret match recommendations case with
       | Some recs =>
           _add_section story "Clinical Recommendations" (map icon_text recs)
       | None => story
       end.

(** The loop [for idx, case in enumerate(cases, 1)] of [generate_report]. *)
Definition add_cases (story : list Flowable) (cases : list Case)
  : Py.result (list Flowable * nat) :=
  Py.for_each
    (fun (acc : list Flowable * nat) case =>
       story ← _add_case acc.1 case acc.2;
       mret ((story ++ [Spacer 1 30])%list, S acc.2))
    (story, 1%nat) cases.

(** [doc.build(story)] lays the story out and then writes the document at
    the path of the template; nothing is written when the layout fails. *)
Definition build (file_path : string) (story : list Flowable)
    (fs : gmap string (list Flowable))
  : Py.result (gmap string (list Flowable)) :=
  _ ← layout story;
  if can_write file_path
  then mret (<[file_path := story]> fs)
  else Py.Raise (Py.OSError ("cannot write " ++ file_path)).

(** [ReportGenerator.generate_report]: returns (the file system after)
    [True], or re-raises what the body raised. *)
Definition generate_report (file_path : string) (cases : list Case)
    (fs : gmap string (list Flowable))
  : Py.result (gmap string (list Flowable)) :=
  let story := _add_header [] in
  acc ← add_cases story cases;
  build file_path acc.1 fs.

(** The first loop of [_generate_pdf_report]: the cases made from the
    cards of the grid, in order. Every widget before the stretch item is
    an [ImageCard]. *)
Definition collect_cases (cards : list ImageCard) : Py.result (list Case) :=
  Py.comprehension prepare_case_data cards.

Definition _generate_pdf_report (file_path : string)
    (st : DentalXRayAnalyzer) (fs : gmap string (list Flowable))
  : Py.result (gmap string (list Flowable)) :=
  cases ← collect_cases (grid st);
  if negb (truthy cases)
  then Py.Raise (Py.ValueError "No cases to export")
  else generate_report file_path cases fs.

(** [export_report], given the file name the save dialog returned (empty
    when the user cancelled). *)
Definition export_report (file_name : string) (st : DentalXRayAnalyzer)
    (fs : gmap string (list Flowable))
  : DentalXRayAnalyzer * gmap string (list Flowable) :=
  if (Z.of_nat (length (grid st)) + 1 <=? 1)%Z
  then (show (warning "Warning" "No images to export!") st, fs)
  else if decide (file_name = "") then (st, fs)
  else
    match _generate_pdf_report file_name st fs with
    | Py.OK fs' =>
        (show (information "Success" "Report exported successfully!") st, fs')
    | Py.Raise e =>
        (show (critical "Error"
                 ("Failed to export report: " ++ Py.str_exn e)) st, fs)
    end.

(** *** Definitions used to state the properties *)

(** The card of a failed inference: [ImageCard(path, [("Error", 0.0)])]. *)
Definition failed_card (path : string) : ImageCard :=
  mkImageCard path error_result "error"
    [ ImageLabel path;
      Label "🔍 Diagnosis: Error";
      GroupBox "📋 Initial Radiographic Assessment" [];
      GroupBox "" [ Label "🎯 Confidence Score";
                    Label (format_1f (0 * 100)%Q ++ "%") ] ].

(** The card of an empty prediction list. *)
Definition unknown_card (path : string) : ImageCard :=
  mkImageCard path [] "unknown"
    [ ImageLabel path;
      Label "🔍 Diagnosis: Unknown";
      GroupBox "📋 Initial Radiographic Assessment" [];
      GroupBox "" [ Label "🎯 Confidence Score";
                    Label (format_1f 0%Q ++ "%") ] ].

(** Both phases of a management plan are present. *)
Definition complete_plan (m : gmap string (list string)) : bool :=
  match m !! "Immediate Action", m !! "Long-term Plan" with
  | Some _, Some _ => true
  | _, _ => false
  end.

(** The bar during a batch of [n] images: range [0..n], value within. *)
Definition bar_ok (n : Z) (b : QProgressBar) : Prop :=
  minimum b = 0 /\ maximum b = n /\ 0 <= value b <= n.

(** The signals of a batch: one worker per file name, each run against
    some state of the shared handler. *)
Definition batch_signals (file_names : list string)
    (outs : list (list Signal)) : Prop :=
  Forall2
    (fun f sigs =>
       exists w h g, worker_image_path w = f /\ sigs = (run w h g).1.1)
    file_names outs.

(** A task fails when the image cannot be preprocessed or when the body
    of [predict] raises. *)
Definition inference_fails (w : PredictionWorker) (h : ModelHandler Weights)
    (g : Rng) : Prop :=
  match preprocess_image (worker_image_path w) with
  | None => True
  | Some t =>
      exists e,
        predict_try (class_names h) (forward (model h) g t).1.1 (top_k w)
        = Py.Raise e
  end.

(** The completions and the error messages carried by a sequence of
    signals, in order. *)
Definition completions (signals : list Signal) : list (string * Predictions) :=
  flat_map (fun s => match s with
                     | finished results path => [(path, results)]
                     | error _ => []
                     end) signals.

Definition error_messages (signals : list Signal) : list string :=
  flat_map (fun s => match s with
                     | finished _ _ => []
                     | error message => [message]
                     end) signals.

(** The texts of the case-number headings of a story, in order. *)
Definition case_numbers (story : list Flowable) : list string :=
  flat_map (fun f => match f with
                     | Paragraph text style =>
                         if String.eqb style "CaseNumber" then [text] else []
                     | _ => []
                     end) story.

(** *** The knowledge base *)

Lemma recommendations_keys :
  DiagnosisData.recommendations_items.*1 = DiagnosisData.known_labels.
Proof. reflexivity. Qed.

Lemma management_keys :
  DiagnosisData.management_items.*1 = DiagnosisData.known_labels.
Proof. reflexivity. Qed.

Lemma findings_unknown label :
  label ∉ DiagnosisData.known_labels ->
  DiagnosisData.FINDINGS_MAP !! label = None.
Proof. intros Hl. by apply not_elem_of_list_to_map_1. Qed.

Lemma recommendations_unknown label :
  label ∉ DiagnosisData.known_labels ->
  DiagnosisData.RECOMMENDATIONS_MAP !! label = None.
Proof.
  intros Hl. apply not_elem_of_list_to_map_1.
  by rewrite recommendations_keys.
Qed.

Lemma management_unknown label :
  label ∉ DiagnosisData.known_labels ->
  DiagnosisData.MANAGEMENT_MAP !! label = None.
Proof.
  intros Hl. apply not_elem_of_list_to_map_1.
  by rewrite management_keys.
Qed.

Lemma truthy_nonempty {A} (l : list A) : truthy l = true <-> l <> [].
Proof. destruct l; simpl; split; congruence. Qed.

Lemma known_labels_lookups :
  forallb (fun label =>
             truthy (_get_findings_for_diagnosis label)
             && truthy (_get_recommendations label))
          DiagnosisData.known_labels = true.
Proof. vm_compute. reflexivity. Qed.

(** C6: each of the 8 diagnosis labels (the keys of the tables, which are
    the model's class names in lower case, as the card looks them up) has
    non-empty findings and recommendations; for every other label both
    lookups return the empty list. *)
Theorem knowledge_base_lookups :
  map Str.lower the_class_names = DiagnosisData.known_labels
  /\ (forall label, label ∈ DiagnosisData.known_labels ->
        _get_findings_for_diagnosis label <> []
        /\ _get_recommendations label <> [])
  /\ (forall label, label ∉ DiagnosisData.known_labels ->
        _get_findings_for_diagnosis label = []
        /\ _get_recommendations label = []).
Proof.
  split; [reflexivity | split].
  - intros label Hl. apply list_elem_of_In in Hl.
    pose proof (proj1 (forallb_forall _ _) known_labels_lookups label Hl) as Hb.
    apply andb_prop in Hb as [Hf Hr].
    split; by apply truthy_nonempty.
  - intros label Hl. unfold _get_findings_for_diagnosis, _get_recommendations, Py.get.
    by rewrite findings_unknown, recommendations_unknown.
Qed.

Lemma management_plans_complete :
  forallb (fun kv => complete_plan kv.2) DiagnosisData.management_items = true.
Proof. vm_compute. reflexivity. Qed.

Lemma management_lookup_complete label m :
  DiagnosisData.MANAGEMENT_MAP !! label = Some m -> complete_plan m = true.
Proof.
  intros Hm. apply elem_of_list_to_map_2, list_elem_of_In in Hm.
  exact (proj1 (forallb_forall _ _) management_plans_complete _ Hm).
Qed.

(** *** The image card *)

Lemma _add_management_section_returns primary :
  Py.returns (_add_management_section primary).
Proof.
  unfold _add_management_section.
  destruct (DiagnosisData.MANAGEMENT_MAP !! primary) as [m|] eqn:Hm;
    [|by eexists].
  destruct (decide (m = ∅)); [by eexists|].
  apply management_lookup_complete in Hm. unfold complete_plan in Hm.
  unfold Py.getitem.
  destruct (m !! "Immediate Action"); [|done].
  destruct (m !! "Long-term Plan"); [|done].
  by eexists.
Qed.

(** Building a card never raises, whatever the predictions are. *)
Lemma ImageCard_init_returns path preds :
  exists ws,
    ImageCard_init path preds =
      Py.OK (mkImageCard path preds
               (match preds with
                | [] => "unknown"
                | p :: _ => Str.lower p.1
                end) ws).
Proof.
  unfold ImageCard_init, setup_ui, _add_confidence_section, confidence_score.
  destruct preds as [|p rest]; simpl.
  - destruct (_add_management_section_returns "unknown") as [ws ->].
    by eexists.
  - destruct (_add_management_section_returns (Str.lower p.1)) as [ws ->].
    by eexists.
Qed.

Lemma failed_card_init path :
  ImageCard_init path error_result = Py.OK (failed_card path).
Proof. reflexivity. Qed.

(** C10: building a card from an empty prediction list returns a card:
    its primary diagnosis is "unknown", the confidence shown is 0.0, the
    findings group has no item and there is neither a management nor a
    recommendations group. *)
Theorem card_with_no_predictions path :
  ImageCard_init path [] = Py.OK (unknown_card path)
  /\ primary_diagnosis (unknown_card path) = "unknown"
  /\ confidence_score [] = Py.OK 0%Q
  /\ _create_findings_group "unknown"
     = GroupBox "📋 Initial Radiographic Assessment" []
  /\ _add_management_section "unknown" = Py.OK []
  /\ _add_recommendations_section "unknown" = [].
Proof. repeat split; reflexivity. Qed.

(** *** The report *)

(** C7: exporting an empty batch fails before anything is written:
    [_generate_pdf_report] raises [ValueError("No cases to export")]
    without reaching the generator, and [export_report] shows the warning
    "No images to export!" and leaves the file system as it was. *)
Theorem export_empty_batch file_name st fs :
  grid st = [] ->
  collect_cases (grid st) = Py.OK []
  /\ _generate_pdf_report file_name st fs
     = Py.Raise (Py.ValueError "No cases to export")
  /\ export_report file_name st fs
     = (show (warning "Warning" "No images to export!") st, fs).
Proof.
  intros Hg. unfold _generate_pdf_report, export_report.
  rewrite Hg. repeat split; reflexivity.
Qed.

Lemma prepare_case_data_unknown card p rest :
  predictions card = p :: rest ->
  primary_diagnosis card ∉ DiagnosisData.known_labels ->
  prepare_case_data card =
    Py.OK (mkCase (image_path card) (Str.title (primary_diagnosis card))
             (p.2 * 100)%Q [] (Some []) (Some ∅)).
Proof.
  intros Hp Hl. unfold prepare_case_data. rewrite Hp. simpl.
  unfold _get_findings_for_diagnosis, _get_recommendations, Py.get.
  by rewrite findings_unknown, recommendations_unknown, management_unknown.
Qed.

Lemma _add_case_empty_management story case n :
  management case = Some ∅ ->
  _add_case story case n = Py.Raise (Py.KeyError "Immediate Action").
Proof. intros Hm. unfold _add_case. rewrite Hm. reflexivity. Qed.

(** C5: a card whose primary diagnosis is not one of the 8 labels is
    built and turned into a case without error, with an empty management
    dictionary; rendering that case raises [KeyError('Immediate Action')],
    because [_add_case] tests the presence of the key ['management'] and
    then indexes the empty dictionary. *)
Theorem add_case_unknown_label_raises path label conf rest :
  Str.lower label ∉ DiagnosisData.known_labels ->
  exists card case,
    ImageCard_init path ((label, conf) :: rest) = Py.OK card
    /\ prepare_case_data card = Py.OK case
    /\ management case = Some ∅
    /\ forall story n,
         _add_case story case n = Py.Raise (Py.KeyError "Immediate Action").
Proof.
  intros Hl.
  destruct (ImageCard_init_returns path ((label, conf) :: rest)) as [ws Hc].
  eexists _, _. split; [exact Hc|]. split.
  - by apply (prepare_case_data_unknown _ (label, conf) rest).
  - split; [reflexivity|]. intros story n.
    by apply _add_case_empty_management.
Qed.

Lemma image_block_failure path e :
  PILImage_open path = Py.Raise e ->
  Py.try_except (image_block path) (fun _ => [image_placeholder])
  = [image_placeholder].
Proof. intros Ho. unfold image_block. by rewrite Ho. Qed.

(** Where the diagnosis is known, a case whose image cannot be opened is
    rendered with the placeholder in place of the image and with all its
    other sections. *)
Lemma _add_case_image_failure story case n e recs m immediate long_term :
  PILImage_open (case_image_path case) = Py.Raise e ->
  recommendations case = Some recs ->
  management case = Some m ->
  m !! "Immediate Action" = Some immediate ->
  m !! "Long-term Plan" = Some long_term ->
  _add_case story case n =
    Py.OK
      (_add_section
         (_add_section
            (_add_section
               (_add_section
                  ((((story
                      ++ [Paragraph ("Case #" ++ pretty n) "CaseNumber"])
                     ++ [image_placeholder])
                    ++ [ Table [[ Paragraph ("Diagnosis: " ++ diagnosis case)
                                            "DiagnosisText";
                                  Paragraph ("Confidence: "
                                             ++ format_1f (confidence case)
                                             ++ "%") "Normal" ]]
                               [4 * inch; 3 * inch];
                         Spacer 1 20 ])%list)
                  "Initial Radiographic Assessment" (findings case))
               "Immediate Action Required" immediate)
            "Long-term Management Plan" long_term)
         "Clinical Recommendations" (map icon_text recs)).
Proof.
  intros Ho Hr Hm Hi Hl. unfold _add_case.
  rewrite (image_block_failure _ _ Ho), Hr, Hm.
  unfold Py.getitem. rewrite Hi, Hl. reflexivity.
Qed.

(** C8: a batch whose only case is a failed inference on an image that
    cannot be opened. The image block is replaced by the placeholder, but
    the case then raises [KeyError('Immediate Action')], so the report is
    not generated and nothing is written. *)
Theorem export_failed_case_raises file_name path e st fs :
  PILImage_open path = Py.Raise e ->
  grid st = [failed_card path] ->
  file_name <> "" ->
  Py.try_except (image_block path) (fun _ => [image_placeholder])
  = [image_placeholder]
  /\ _generate_pdf_report file_name st fs
     = Py.Raise (Py.KeyError "Immediate Action")
  /\ export_report file_name st fs
     = (show (critical "Error"
                "Failed to export report: 'Immediate Action'") st, fs).
Proof.
  intros Ho Hg Hf. split; [by apply (image_block_failure _ e)|].
  assert (_generate_pdf_report file_name st fs
          = Py.Raise (Py.KeyError "Immediate Action")) as Hr.
  { unfold _generate_pdf_report. rewrite Hg. reflexivity. }
  split; [exact Hr|].
  unfold export_report. rewrite Hr, Hg. simpl.
  destruct (decide (file_name = "")); [done|reflexivity].
Qed.

(** *** Failed cases and the export *)

Lemma error_not_a_label : "error" ∉ DiagnosisData.known_labels.
Proof.
  apply (proj1 (bool_decide_eq_false _)). vm_compute. reflexivity.
Qed.

Lemma class_name_known label :
  label ∈ the_class_names -> Str.lower label ∈ DiagnosisData.known_labels.
Proof.
  intros Hl. change DiagnosisData.known_labels with (Str.lower <$> the_class_names).
  by apply list_elem_of_fmap_2.
Qed.

Lemma collect_cases_all cards :
  Forall (fun card => predictions card <> []) cards ->
  exists cases,
    collect_cases cards = Py.OK cases
    /\ Forall2 (fun card case => prepare_case_data card = Py.OK case)
               cards cases.
Proof.
  unfold collect_cases.
  induction 1 as [|card cards Hne _ [cases [Hc Hall]]]; [by eexists|].
  assert (exists case, prepare_case_data card = Py.OK case) as [case Hcase].
  { unfold prepare_case_data. destruct (predictions card); [done|by eexists]. }
  exists (case :: cases). simpl. rewrite Hcase. simpl. rewrite Hc.
  split; [reflexivity|by constructor].
Qed.

(** C1 (as the code has it): a failed inference is shown by a card of its
    own kind: the single prediction ("Error", 0.0), the primary diagnosis
    "error", which no prediction over the model's class names produces,
    and no findings or recommendations. The export makes one case from
    every card of the grid, in order, whether it is a failed one or not:
    nothing filters the failed cards out. *)
Theorem failed_case_collected path :
  ImageCard_init path error_result = Py.OK (failed_card path)
  /\ predictions (failed_card path) = error_result
  /\ primary_diagnosis (failed_card path) = "error"
  /\ _get_findings_for_diagnosis "error" = []
  /\ _get_recommendations "error" = []
  /\ (forall p label conf rest card,
        label ∈ the_class_names ->
        ImageCard_init p ((label, conf) :: rest) = Py.OK card ->
        primary_diagnosis card ∈ DiagnosisData.known_labels
        /\ primary_diagnosis card <> "error")
  /\ (forall cards,
        Forall (fun card => predictions card <> []) cards ->
        exists cases,
          collect_cases cards = Py.OK cases
          /\ Forall2 (fun card case => prepare_case_data card = Py.OK case)
                     cards cases)
  /\ (forall before after,
        Forall (fun card => predictions card <> []) (before ++ after) ->
        exists cases case,
          collect_cases (before ++ failed_card path :: after) = Py.OK cases
          /\ prepare_case_data (failed_card path) = Py.OK case
          /\ diagnosis case = "Error"
          /\ case ∈ cases).
Proof.
  do 5 (split; [reflexivity|]). split; [|split].
  - intros p label conf rest card Hl Hc.
    destruct (ImageCard_init_returns p ((label, conf) :: rest)) as [ws Hc'].
    rewrite Hc' in Hc. injection Hc as <-. simpl.
    pose proof (class_name_known _ Hl) as Hk. split; [exact Hk|].
    intros He. rewrite He in Hk. by apply error_not_a_label.
  - apply collect_cases_all.
  - intros before after Hne.
    destruct (collect_cases_all (before ++ failed_card path :: after))
      as [cases [Hc Hall]].
    { apply Forall_app in Hne as [Hb Ha]. apply Forall_app. split; [done|].
      constructor; [discriminate|done]. }
    apply Forall2_app_inv_l in Hall as (cb & ca & Hb & Ha & ->).
    inversion Ha as [|? case ? ca' Hcase Ha']; subst.
    exists (cb ++ case :: ca')%list, case. split; [exact Hc|]. split; [exact Hcase|].
    split.
    + vm_compute in Hcase. by injection Hcase as <-.
    + apply elem_of_app. right. by left.
Qed.

(** *** Inference *)

Lemma _initialize_model_eval path m :
  _initialize_model path = Py.OK m -> training m = false.
Proof.
  unfold _initialize_model. destruct (path_exists path); simpl; [|done].
  destruct (torch_load path) as [checkpoint|]; simpl; [|done].
  destruct (checkpoint !! "model_state_dict") as [sd|]; [|done].
  destruct (load_state_dict sd) as [w|]; simpl; [|done].
  by intros [= <-].
Qed.

(** In evaluation mode [predict] leaves the handler and the generator as
    they were. *)
Lemma predict_eval_mode h g t k :
  training (model h) = false ->
  predict h g t k =
    (Py.try_except
       (predict_try (class_names h) (net_eval (weights (model h)) t) k)
       (fun _ => error_result), h, g).
Proof.
  intros Ht. unfold predict, forward. rewrite Ht. by destruct h.
Qed.

(** C9: on a handler built by [ModelHandler.__init__] (which puts the
    model in evaluation mode), two successive [predict] calls on the same
    image tensor, the second one in the state the first one left, return
    the same list. *)
Theorem predict_deterministic path h g t k r1 h1 g1 r2 h2 g2 :
  ModelHandler_init path = Py.OK h ->
  predict h g t k = (r1, h1, g1) ->
  predict h1 g1 t k = (r2, h2, g2) ->
  r1 = r2 /\ h1 = h /\ g1 = g.
Proof.
  intros Hinit H1 H2.
  assert (training (model h) = false) as Ht.
  { unfold ModelHandler_init in Hinit.
    destruct (_initialize_model path) as [m|] eqn:Hm; simpl in Hinit; [|done].
    injection Hinit as <-. simpl. by apply (_initialize_model_eval path). }
  rewrite (predict_eval_mode _ _ _ _ Ht) in H1. injection H1 as <- <- <-.
  rewrite (predict_eval_mode _ _ _ _ Ht) in H2. by injection H2 as <- _ _.
Qed.

(** *** The worker *)

Lemma predict_failure h g t k outputs m' g' e :
  forward (model h) g t = (outputs, m', g') ->
  predict_try (class_names h) outputs k = Py.Raise e ->
  (predict h g t k).1.1 = error_result.
Proof. intros Hf He. unfold predict. rewrite Hf. simpl. by rewrite He. Qed.

Lemma run_one_completion w h g :
  length (filter (fun s => is_finished s = true) (run w h g).1.1) = 1%nat.
Proof.
  unfold run. destruct (preprocess_image (worker_image_path w)); [|done].
  by destruct (predict h g t (top_k w)) as [[results h'] g'].
Qed.

(** C3 (as the code has it): every task emits exactly one completion
    signal. When preprocessing fails, the worker emits the error message
    and then the fallback pair through the completion signal. When the
    failure happens inside [predict], [predict] itself returns the
    fallback pair and the worker emits it through the completion signal
    alone, with no error signal. Otherwise the completion signal carries
    the predictions. *)
Theorem run_signals w h g :
  length (filter (fun s => is_finished s = true) (run w h g).1.1) = 1%nat
  /\ (preprocess_image (worker_image_path w) = None ->
      (run w h g).1.1 =
        [ error "Failed to preprocess image";
          finished error_result (worker_image_path w) ])
  /\ (forall t,
        preprocess_image (worker_image_path w) = Some t ->
        (run w h g).1.1 =
          [ finished (predict h g t (top_k w)).1.1 (worker_image_path w) ])
  /\ (forall t outputs m' g' e,
        preprocess_image (worker_image_path w) = Some t ->
        forward (model h) g t = (outputs, m', g') ->
        predict_try (class_names h) outputs (top_k w) = Py.Raise e ->
        (run w h g).1.1 = [ finished error_result (worker_image_path w) ]).
Proof.
  split; [apply run_one_completion|]. split; [|split].
  - intros Hp. unfold run. by rewrite Hp.
  - intros t Hp. unfold run. rewrite Hp.
    by destruct (predict h g t (top_k w)) as [[results h'] g'].
  - intros t outputs m' g' e Hp Hf He.
    pose proof (predict_failure _ _ _ _ _ _ _ _ Hf He) as Hr.
    unfold run. rewrite Hp.
    destruct (predict h g t (top_k w)) as [[results h''] g''].
    simpl in *. by rewrite Hr.
Qed.

(** *** The batch controller *)

Lemma setValue_step n b :
  1 <= n -> bar_ok n b ->
  bar_ok n (setValue (value b + 1) b)
  /\ value (setValue (value b + 1) b) = Z.min (value b + 1) n.
Proof.
  intros Hn (Hmin & Hmax & Hv). unfold bar_ok, setValue.
  rewrite Hmin, Hmax.
  destruct (value b =? value b + 1)%Z eqn:E1; [lia|].
  destruct (n <? value b + 1)%Z eqn:E2; simpl.
  - replace (n =? 0)%Z with false by lia. simpl. lia.
  - destruct (value b + 1 <? 0)%Z eqn:E3; [lia|]. simpl. lia.
Qed.

(** Either slot leaves the bar as [setValue(value() + 1)] does, up to its
    visibility. *)
Lemma deliver_bar st s :
  let b := progress_bar (deliver st s) in
  let b' := setValue (value (progress_bar st) + 1) (progress_bar st) in
  minimum b = minimum b' /\ maximum b = maximum b' /\ value b = value b'.
Proof.
  destruct s as [preds path|message]; simpl; [|done].
  unfold _handle_prediction_result.
  destruct (ImageCard_init_returns path preds) as [ws ->]. simpl.
  match goal with |- context [if ?c then _ else _] => destruct c end; done.
Qed.

Lemma deliver_all_value n signals : forall st,
  1 <= n -> bar_ok n (progress_bar st) ->
  bar_ok n (progress_bar (deliver_all st signals))
  /\ value (progress_bar (deliver_all st signals))
     = Z.min (value (progress_bar st) + Z.of_nat (length signals)) n.
Proof.
  unfold deliver_all.
  induction signals as [|s signals IH]; intros st Hn Hok; simpl.
  - split; [done|]. destruct Hok as (_ & _ & Hv). lia.
  - destruct (setValue_step n _ Hn Hok) as [Hok' Hv'].
    destruct (deliver_bar st s) as (Hmin & Hmax & Hval).
    assert (bar_ok n (progress_bar (deliver st s))) as Hok''.
    { unfold bar_ok. rewrite Hmin, Hmax, Hval. exact Hok'. }
    destruct (IH (deliver st s) Hn Hok'') as [Hok3 Hv3].
    split; [done|]. rewrite Hv3, Hval, Hv'. lia.
Qed.

Lemma process_images_bar file_names : forall st,
  progress_bar (foldl (fun st f => _process_image f st) st file_names)
  = progress_bar st.
Proof.
  induction file_names as [|f fs IH]; intros st; simpl; [done|].
  by rewrite IH.
Qed.

Lemma setMaximum_range n b :
  minimum b = 0 -> 0 <= n ->
  minimum (setMaximum n b) = 0 /\ maximum (setMaximum n b) = n.
Proof.
  intros Hmin Hn. unfold setMaximum, setRange.
  replace (Z.min (minimum b) n) with 0 by lia. rewrite Hmin.
  destruct (n =? maximum b)%Z eqn:E; simpl; [|lia].
  apply Z.eqb_eq in E. done.
Qed.

Lemma setValue_zero n b :
  minimum b = 0 -> maximum b = n -> 1 <= n ->
  bar_ok n (setValue 0 b) /\ value (setValue 0 b) = 0.
Proof.
  intros Hmin Hmax Hn. unfold bar_ok, setValue. rewrite Hmin, Hmax.
  destruct (value b =? 0)%Z eqn:E; simpl.
  - apply Z.eqb_eq in E. lia.
  - replace (n <? 0)%Z with false by lia. simpl. lia.
Qed.

Lemma load_images_bar file_names st :
  file_names <> [] ->
  minimum (progress_bar st) = 0 ->
  bar_ok (Z.of_nat (length file_names))
         (progress_bar (load_images file_names st))
  /\ value (progress_bar (load_images file_names st)) = 0.
Proof.
  intros Hne Hmin. unfold load_images.
  destruct file_names as [|f fs]; [done|].
  cbn [truthy negb]. rewrite process_images_bar.
  set (n := Z.of_nat (length (f :: fs))).
  assert (1 <= n) as Hn by (subst n; simpl; lia).
  cbn [set_progress_bar progress_bar].
  destruct (setMaximum_range n (setVisible true (progress_bar st)))
    as [Hmin' Hmax']; [done|lia|].
  by apply setValue_zero.
Qed.

Lemma batch_completions file_names outs :
  batch_signals file_names outs ->
  length (filter (fun s => is_finished s = true) (concat outs))
  = length file_names.
Proof.
  induction 1 as [|f sigs fs outs (w & h & g & _ & ->) _ IH]; [done|].
  simpl. rewrite filter_app, length_app, run_one_completion, IH. done.
Qed.

(** C2 (as the code has it): a batch of N >= 1 images delivers exactly N
    completion signals, and once all signals of the batch have been
    handled, in whatever order they arrive, the progress bar stands at N
    (an empty selection leaves the window as it is). The error slot does
    advance the counter: it adds one whenever the value is below the
    maximum. *)
Theorem batch_progress file_names st outs delivered :
  file_names <> [] ->
  minimum (progress_bar st) = 0 ->
  batch_signals file_names outs ->
  delivered ≡ₚ concat outs ->
  length (filter (fun s => is_finished s = true) delivered)
  = length file_names
  /\ load_images [] st = st
  /\ value (progress_bar (deliver_all (load_images file_names st) delivered))
     = Z.of_nat (length file_names)
  /\ (forall message st',
        minimum (progress_bar st') <= value (progress_bar st') + 1
                                   <= maximum (progress_bar st') ->
        value (progress_bar (_handle_prediction_error message st'))
        = value (progress_bar st') + 1).
Proof.
  intros Hne Hmin Hb Hp.
  assert (length (filter (fun s => is_finished s = true) delivered)
          = length file_names) as Hcount.
  { rewrite Hp. by apply batch_completions. }
  split; [exact Hcount|]. split; [reflexivity|]. split.
  - destruct (load_images_bar file_names st Hne Hmin) as [Hok Hv].
    assert (1 <= Z.of_nat (length file_names)) as Hn.
    { destruct file_names; [done|simpl; lia]. }
    destruct (deliver_all_value _ delivered _ Hn Hok) as [_ ->].
    rewrite Hv.
    pose proof (length_filter (fun s => is_finished s = true) delivered).
    lia.
  - intros message st' Hr. unfold _handle_prediction_error, setValue. simpl.
    destruct (value (progress_bar st') =? value (progress_bar st') + 1)%Z eqn:E1;
      [lia|].
    replace (maximum (progress_bar st') <? value (progress_bar st') + 1)%Z
      with false by lia.
    replace (value (progress_bar st') + 1 <? minimum (progress_bar st'))%Z
      with false by lia.
    reflexivity.
Qed.

(** ** Further properties of the code *)

(** *** The knowledge base, all three tables *)

Lemma list_to_map_is_Some {V} (items : list (string * V)) label :
  is_Some ((list_to_map items : gmap string V) !! label) <-> label ∈ items.*1.
Proof.
  rewrite <- elem_of_dom, dom_list_to_map_L. apply elem_of_list_to_set.
Qed.

Lemma plans_have_three_items :
  forallb (fun kv : string * gmap string (list string) =>
             match kv.2 !! "Immediate Action", kv.2 !! "Long-term Plan" with
             | Some i, Some l =>
                 (length i =? 3)%nat && (length l =? 3)%nat
                 && bool_decide (dom kv.2 = {[ "Immediate Action"; "Long-term Plan" ]})
             | _, _ => false
             end)
          DiagnosisData.management_items = true.
Proof. vm_compute. reflexivity. Qed.

(** X1: the three tables are keyed by the same 8 labels without
    repetition, so a label has findings exactly when it has recommendations
    and a management plan; and every management plan holds exactly the two
    phases, with three items each. *)
Theorem knowledge_base_tables_agree label :
  NoDup DiagnosisData.known_labels
  /\ length DiagnosisData.known_labels = 8%nat
  /\ (is_Some (DiagnosisData.FINDINGS_MAP !! label)
      <-> label ∈ DiagnosisData.known_labels)
  /\ (is_Some (DiagnosisData.RECOMMENDATIONS_MAP !! label)
      <-> label ∈ DiagnosisData.known_labels)
  /\ (is_Some (DiagnosisData.MANAGEMENT_MAP !! label)
      <-> label ∈ DiagnosisData.known_labels)
  /\ (forall m,
        DiagnosisData.MANAGEMENT_MAP !! label = Some m ->
        dom m = {[ "Immediate Action"; "Long-term Plan" ]}
        /\ exists immediate long_term,
             m !! "Immediate Action" = Some immediate
             /\ m !! "Long-term Plan" = Some long_term
             /\ length immediate = 3%nat /\ length long_term = 3%nat).
Proof.
  split; [apply (bool_decide_unpack _); vm_compute; exact I|].
  split; [reflexivity|].
  split; [apply list_to_map_is_Some|].
  split; [rewrite <- recommendations_keys; apply list_to_map_is_Some|].
  split; [rewrite <- management_keys; apply list_to_map_is_Some|].
  intros m Hm. apply elem_of_list_to_map_2, list_elem_of_In in Hm.
  pose proof (proj1 (forallb_forall _ _) plans_have_three_items _ Hm) as Hb.
  simpl in Hb.
  destruct (m !! "Immediate Action") as [i|]; [|done].
  destruct (m !! "Long-term Plan") as [l|]; [|done].
  apply andb_prop in Hb as [Hb Hd]. apply andb_prop in Hb as [Hi Hl].
  apply bool_decide_eq_true in Hd. split; [exact Hd|].
  exists i, l. repeat split; by apply Nat.eqb_eq.
Qed.

(** *** The card of a known diagnosis *)

(** X2: when the first prediction is one of the model's class names, the
    card is built with all six sections: image, diagnosis header, a
    findings group of 6 items, the confidence (the top confidence times
    100), a management group (two headers and 3 + 3 items) and a
    recommendations group of at least 4 items. *)
Theorem card_of_known_label path label conf rest :
  label ∈ the_class_names ->
  exists found plan recs,
    ImageCard_init path ((label, conf) :: rest)
    = Py.OK (mkImageCard path ((label, conf) :: rest) (Str.lower label)
               [ ImageLabel path;
                 Label ("🔍 Diagnosis: " ++ Str.title (Str.lower label));
                 GroupBox "📋 Initial Radiographic Assessment" found;
                 GroupBox "" [ Label "🎯 Confidence Score";
                               Label (format_1f (conf * 100)%Q ++ "%") ];
                 GroupBox "📋 Management Plan" plan;
                 GroupBox "💡 Clinical Recommendations" recs ])
    /\ length found = 6%nat
    /\ length plan = 8%nat
    /\ (4 <= length recs)%nat.
Proof.
  intros Hl. unfold the_class_names in Hl.
  repeat (apply elem_of_cons in Hl as [->|Hl]);
    [..|by apply elem_of_nil in Hl];
    (eexists _, _, _; split; [reflexivity|]; vm_compute; repeat split; lia).
Qed.

(** *** Loading the model *)

(** X3: [_initialize_model] returns a module exactly when the file exists,
    the checkpoint loads, it has the key "model_state_dict" and the strict
    [load_state_dict] accepts it; the module then carries the loaded
    weights in evaluation mode. A missing file raises [FileNotFoundError]
    before the checkpoint is read, and a checkpoint without the key raises
    [KeyError("Invalid checkpoint format")]. *)
Theorem _initialize_model_outcome path :
  (forall m,
     _initialize_model path = Py.OK m <->
     path_exists path = true
     /\ exists checkpoint state_dict w,
          torch_load path = Py.OK checkpoint
          /\ checkpoint !! "model_state_dict" = Some state_dict
          /\ load_state_dict state_dict = Py.OK w
          /\ m = mkModule w false)
  /\ (path_exists path = false ->
      _initialize_model path
      = Py.Raise (Py.FileNotFoundError ("Model file '" ++ path ++ "' not found!")))
  /\ (forall checkpoint,
        path_exists path = true ->
        torch_load path = Py.OK checkpoint ->
        checkpoint !! "model_state_dict" = None ->
        _initialize_model path
        = Py.Raise (Py.KeyError "Invalid checkpoint format")).
Proof.
  unfold _initialize_model. split; [|split].
  - intros m. split.
    + destruct (path_exists path); simpl; [|done].
      destruct (torch_load path) as [checkpoint|]; simpl; [|done].
      destruct (checkpoint !! "model_state_dict") as [sd|] eqn:Hk; [|done].
      destruct (load_state_dict sd) as [w|] eqn:Hw; simpl; [|done].
      intros [= <-]. split; [done|]. by exists checkpoint, sd, w.
    + intros (-> & checkpoint & sd & w & -> & Hk & Hw & ->). simpl.
      by rewrite Hk, Hw.
  - by intros ->.
  - intros checkpoint -> -> Hk. simpl. by rewrite Hk.
Qed.

(** *** The result of [predict] *)

Lemma named_predictions names pcs : forall results,
  Py.comprehension
    (fun pc : nat * Q => name ← Py.index names pc.1; mret (name, pc.2)) pcs
  = Py.OK results ->
  Forall (fun r : string * Q => r.1 ∈ names) results
  /\ results.*2 = pcs.*2
  /\ Forall2 (fun (r : string * Q) (pc : nat * Q) => names !! pc.1 = Some r.1)
             results pcs.
Proof.
  induction pcs as [|pc pcs IH]; intros results; simpl.
  - intros [= <-]. by repeat constructor.
  - unfold Py.index. destruct (names !! pc.1) as [name|] eqn:Hn; simpl; [|done].
    destruct (Py.comprehension _ pcs) as [rs|]; simpl; [|done].
    intros [= <-]. destruct (IH rs eq_refl) as (Hall & Hconf & Hidx).
    split; [|split].
    + constructor; [|done]. simpl. by eapply list_elem_of_lookup_2.
    + by rewrite !fmap_cons, Hconf.
    + by constructor.
Qed.

(** X4: [predict] returns either the fallback [("Error", 0.0)] or one
    pair per (index, value) pair that [topk] gave, in that order: the label
    is the class name at the index and the confidence is the value. So
    every label of a result is "Error" or one of the handler's class
    names, and an index outside the class names gives the fallback. *)
Theorem predict_result h g t k :
  let results := (predict h g t k).1.1 in
  results = error_result
  \/ exists outputs confidences preds,
       (forward (model h) g t).1.1 = Py.OK outputs
       /\ topk (softmax outputs) k = Py.OK (confidences, preds)
       /\ Forall (fun r : string * Q => r.1 ∈ class_names h) results
       /\ results.*2 = (zip preds confidences).*2
       /\ Forall2 (fun (r : string * Q) (pc : nat * Q) =>
                     class_names h !! pc.1 = Some r.1)
                  results (zip preds confidences).
Proof.
  unfold predict.
  destruct (forward (model h) g t) as [[outputs m'] g'] eqn:Hf. simpl.
  unfold predict_try.
  destruct outputs as [outputs|]; simpl; [|by left].
  destruct (topk (softmax outputs) k) as [[confidences preds]|] eqn:Ht;
    simpl; [|by left].
  destruct (Py.comprehension _ (zip preds confidences)) as [results|] eqn:Hc;
    simpl; [|by left].
  right. exists outputs, confidences, preds.
  destruct (named_predictions _ _ _ Hc) as (Hall & Hconf & Hidx).
  by repeat split.
Qed.

(** *** The signals of a worker *)

Lemma preprocess_image_None path :
  preprocess_image path = None <->
  (exists e, open_rgb path = Py.Raise e)
  \/ (exists pixels e, open_rgb path = Py.OK pixels
                      /\ transform pixels = Py.Raise e).
Proof.
  unfold preprocess_image.
  destruct (open_rgb path) as [pixels|e] eqn:Ho; simpl.
  - destruct (transform pixels) as [t|e] eqn:Ht; simpl.
    + split; [done|]. intros [[e [=]]|(px & e & [= <-] & He)]. congruence.
    + split; [|done]. intros _. right. by exists pixels, e.
  - split; [|done]. intros _. left. by exists e.
Qed.

(** X5: a worker emits the error signal exactly when the image cannot be
    opened or transformed; the message is then "Failed to preprocess image"
    and the fallback completion follows it. Every completion signal
    carries the worker's own path, and the completion signal is always the
    last signal emitted. *)
Theorem run_error_signal w h g :
  let signals := (run w h g).1.1 in
  ((exists message, error message ∈ signals) <->
   (exists e, open_rgb (worker_image_path w) = Py.Raise e)
   \/ (exists pixels e, open_rgb (worker_image_path w) = Py.OK pixels
                       /\ transform pixels = Py.Raise e))
  /\ (forall message,
        error message ∈ signals ->
        signals = [ error "Failed to preprocess image";
                    finished error_result (worker_image_path w) ])
  /\ (forall results path,
        finished results path ∈ signals -> path = worker_image_path w)
  /\ (exists results,
        last signals = Some (finished results (worker_image_path w))).
Proof.
  simpl. rewrite <- preprocess_image_None. unfold run.
  destruct (preprocess_image (worker_image_path w)) as [t|].
  - destruct (predict h g t (top_k w)) as [[results h'] g']. simpl.
    split; [|split; [|split]].
    + split; [|done]. intros [m Hm].
      apply list_elem_of_singleton in Hm. discriminate.
    + intros m Hm. apply list_elem_of_singleton in Hm. discriminate.
    + intros r p Hp. apply list_elem_of_singleton in Hp. by injection Hp.
    + by exists results.
  - simpl. split; [|split; [|split]].
    + split; [done|]. intros _. eexists. by left.
    + done.
    + intros r p Hp. apply elem_of_cons in Hp as [[=]|Hp].
      apply list_elem_of_singleton in Hp. by injection Hp.
    + by exists error_result.
Qed.

Lemma ModelHandler_init_eval path h :
  ModelHandler_init path = Py.OK h -> training (model h) = false.
Proof.
  unfold ModelHandler_init.
  destruct (_initialize_model path) as [m|] eqn:Hm; simpl; [|done].
  intros [= <-]. simpl. by apply (_initialize_model_eval path).
Qed.

(** X6: a worker run on a handler built by [ModelHandler.__init__] hands
    the handler and the random generator back unchanged, and what it emits
    does not depend on the state of the generator: workers that share the
    handler do not influence each other, in whatever order they run. *)
Theorem run_leaves_handler path h w g g' :
  ModelHandler_init path = Py.OK h ->
  (run w h g).1.2 = h
  /\ (run w h g).2 = g
  /\ (run w h g).1.1 = (run w h g').1.1.
Proof.
  intros Hinit. apply ModelHandler_init_eval in Hinit. unfold run.
  destruct (preprocess_image (worker_image_path w)) as [t|]; [|done].
  by rewrite !(predict_eval_mode _ _ _ _ Hinit).
Qed.

(** *** The batch, signal by signal *)

Lemma deliver_finished st preds path :
  exists ws,
    grid (deliver st (finished preds path))
    = (grid st ++ [mkImageCard path preds
                     (match preds with
                      | [] => "unknown"
                      | p :: _ => Str.lower p.1
                      end) ws])%list
    /\ dialogs (deliver st (finished preds path)) = dialogs st
    /\ (visible (progress_bar st) = false ->
        visible (progress_bar (deliver st (finished preds path))) = false)
    /\ (value (progress_bar (deliver st (finished preds path)))
        = maximum (progress_bar (deliver st (finished preds path))) ->
        visible (progress_bar (deliver st (finished preds path))) = false).
Proof.
  simpl. unfold _handle_prediction_result.
  destruct (ImageCard_init_returns path preds) as [ws ->]. simpl.
  exists ws.
  match goal with |- context [if ?c then _ else _] => destruct c eqn:E end;
    simpl; repeat split; try done.
  - unfold setValue. by case_match.
  - intros Hv. rewrite Hv, Z.eqb_refl in E. done.
Qed.

Lemma deliver_error st message :
  grid (deliver st (error message)) = grid st
  /\ workers (deliver st (error message)) = workers st
  /\ dialogs (deliver st (error message))
     = (dialogs st ++ [warning "Prediction Error"
                         ("Error processing image: " ++ message)])%list
  /\ visible (progress_bar (deliver st (error message)))
     = visible (progress_bar st).
Proof. simpl. repeat split. unfold setValue. simpl. by case_match. Qed.

(** X7: the cards of the grid are in the order in which the completion
    signals arrived, one card per completion signal, each with the path and
    the predictions that its signal carried; error signals add no card.
    [clear_images] does not cancel anything: the signals handled after it
    fill the emptied grid in the same way. *)
Theorem grid_in_completion_order st signals :
  map (fun card => (image_path card, predictions card))
      (grid (deliver_all st signals))
  = (map (fun card => (image_path card, predictions card)) (grid st)
     ++ completions signals)%list
  /\ map (fun card => (image_path card, predictions card))
         (grid (deliver_all (clear_images st) signals))
     = completions signals.
Proof.
  assert (forall st,
            map (fun card => (image_path card, predictions card))
                (grid (deliver_all st signals))
            = (map (fun card => (image_path card, predictions card)) (grid st)
               ++ completions signals)%list) as Hgrid.
  { unfold deliver_all.
    induction signals as [|s signals IH]; intros st'; simpl.
    - by rewrite app_nil_r.
    - rewrite IH. destruct s as [preds path|message].
      + destruct (deliver_finished st' preds path) as (ws & -> & _).
        rewrite map_app. simpl. by rewrite <- app_assoc.
      + destruct (deliver_error st' message) as (-> & _). done. }
  split; [apply Hgrid|]. by rewrite Hgrid.
Qed.

(** X8: the message boxes shown while the signals of a batch are handled
    are exactly one "Prediction Error" warning per error signal, in order,
    each quoting the message of its signal; handling a completion signal
    shows none. *)
Theorem warnings_for_errors st signals :
  dialogs (deliver_all st signals)
  = (dialogs st
     ++ map (fun message =>
               warning "Prediction Error"
                       ("Error processing image: " ++ message))
            (error_messages signals))%list.
Proof.
  unfold deliver_all. revert st.
  induction signals as [|s signals IH]; intros st; simpl.
  - by rewrite app_nil_r.
  - rewrite IH. destruct s as [preds path|message].
    + destruct (deliver_finished st preds path) as (ws & _ & -> & _). done.
    + destruct (deliver_error st message) as (_ & _ & -> & _).
      simpl. by rewrite <- app_assoc.
Qed.

(** *** The progress bar over a batch *)

(** X9: after [load_images] every handled signal, completion or error
    alike, advances the bar by one until it is full: after [k] signals of
    a batch of N >= 1 images the value is [min k N] and the maximum is
    still N. *)
Theorem progress_counts_every_signal file_names st signals :
  file_names <> [] ->
  minimum (progress_bar st) = 0 ->
  let final := deliver_all (load_images file_names st) signals in
  value (progress_bar final)
  = Z.min (Z.of_nat (length signals)) (Z.of_nat (length file_names))
  /\ maximum (progress_bar final) = Z.of_nat (length file_names).
Proof.
  intros Hne Hmin. simpl.
  destruct (load_images_bar file_names st Hne Hmin) as [Hok Hv].
  assert (1 <= Z.of_nat (length file_names)) as Hn.
  { destruct file_names; [done|simpl; lia]. }
  destruct (deliver_all_value _ signals _ Hn Hok) as [(_ & Hmax & _) Hval].
  rewrite Hval, Hv. split; [lia|exact Hmax].
Qed.

Lemma completions_length signals :
  length (completions signals)
  = length (filter (fun s => is_finished s = true) signals).
Proof.
  induction signals as [|[results path|message] signals IH]; [done|..].
  - rewrite filter_cons_True by done. simpl. by rewrite IH.
  - rewrite filter_cons_False by done. exact IH.
Qed.

(** Once enough completion signals are still to come, the bar ends hidden:
    a completion handled when the bar is full hides it, and nothing shows
    it again. *)
Lemma deliver_all_hidden n signals : forall st,
  1 <= n -> bar_ok n (progress_bar st) ->
  visible (progress_bar st) = false
  \/ ((1 <= length (completions signals))%nat
      /\ n - value (progress_bar st) <= Z.of_nat (length (completions signals))) ->
  visible (progress_bar (deliver_all st signals)) = false.
Proof.
  unfold deliver_all.
  induction signals as [|s signals IH]; intros st Hn Hok Hc; simpl.
  - destruct Hc as [Hv|[Hc _]]; [done|simpl in Hc; lia].
  - destruct (setValue_step n _ Hn Hok) as [Hok' Hv'].
    destruct (deliver_bar st s) as (Hmin & Hmax & Hval).
    assert (bar_ok n (progress_bar (deliver st s))) as Hok''.
    { unfold bar_ok. rewrite Hmin, Hmax, Hval. exact Hok'. }
    apply IH; [done|done|].
    destruct Hok'' as (_ & Hmax' & _).
    destruct s as [preds path|message].
    + destruct (deliver_finished st preds path) as (ws & _ & _ & Hkeep & Hfull).
      destruct Hc as [Hv|[Hc1 Hc2]]; [left; by apply Hkeep|].
      destruct (decide (value (progress_bar st) + 1 < n)) as [Hlt|Hge].
      * right. simpl in Hc2. rewrite Hval, Hv'. simpl. lia.
      * left. apply Hfull. rewrite Hmax', Hval, Hv'. lia.
    + destruct (deliver_error st message) as (_ & _ & _ & Hvis).
      destruct Hc as [Hv|[Hc1 Hc2]]; [left; by rewrite Hvis|].
      right. simpl in Hc1, Hc2. rewrite Hval, Hv'. lia.
Qed.

Lemma setRange_visible mn mx b : visible (setRange mn mx b) = visible b.
Proof. unfold setRange. by case_match. Qed.

Lemma setValue_visible v b : visible (setValue v b) = visible b.
Proof. unfold setValue. by case_match. Qed.

(** X10: [load_images] shows the progress bar, and once all the signals of
    the batch (N >= 1 images, any order of arrival) have been handled the
    bar is hidden again. *)
Theorem batch_settled file_names st outs delivered :
  file_names <> [] ->
  minimum (progress_bar st) = 0 ->
  batch_signals file_names outs ->
  delivered ≡ₚ concat outs ->
  visible (progress_bar (load_images file_names st)) = true
  /\ visible (progress_bar (deliver_all (load_images file_names st) delivered))
     = false.
Proof.
  intros Hne Hmin Hb Hp. split.
  - unfold load_images. destruct file_names as [|f fs]; [done|].
    cbn [truthy negb]. rewrite process_images_bar. simpl.
    unfold setMaximum. by rewrite setValue_visible, setRange_visible.
  - destruct (load_images_bar file_names st Hne Hmin) as [Hok Hv].
    assert (1 <= Z.of_nat (length file_names)) as Hn.
    { destruct file_names; [done|simpl; lia]. }
    apply (deliver_all_hidden _ delivered _ Hn Hok). right.
    rewrite completions_length, Hp, (batch_completions _ _ Hb), Hv. lia.
Qed.

(** *** Dispatching the workers *)

Lemma process_images_workers file_names : forall st,
  let st' := foldl (fun st f => _process_image f st) st file_names in
  workers st'
  = (workers st ++ map (fun f => mkWorker f 3 false) file_names)%list
  /\ grid st' = grid st /\ dialogs st' = dialogs st.
Proof.
  induction file_names as [|f fs IH]; intros st; simpl.
  - by rewrite app_nil_r.
  - destruct (IH (_process_image f st)) as (-> & -> & ->). simpl.
    by rewrite <- app_assoc.
Qed.

(** X11: [load_images] starts one worker per selected file, in the order
    of the selection, each on its own path with [top_k = 3], after the
    workers that were already there; it adds no card and shows no message
    box. *)
Theorem load_images_workers file_names st :
  workers (load_images file_names st)
  = (workers st ++ map (fun f => mkWorker f 3 false) file_names)%list
  /\ grid (load_images file_names st) = grid st
  /\ dialogs (load_images file_names st) = dialogs st.
Proof.
  unfold load_images. destruct file_names as [|f fs].
  - simpl. by rewrite app_nil_r.
  - cbn [truthy negb].
    match goal with
    | |- context [foldl _ ?s _] =>
        destruct (process_images_workers (f :: fs) s) as (Hw & Hg & Hd)
    end.
    by rewrite Hw, Hg, Hd.
Qed.

(** *** The story of a report *)

Lemma _add_section_app story body title items :
  _add_section (story ++ body) title items
  = (story ++ _add_section body title items)%list.
Proof. unfold _add_section. by rewrite <- !app_assoc. Qed.

Lemma case_numbers_app s1 s2 :
  case_numbers (s1 ++ s2) = (case_numbers s1 ++ case_numbers s2)%list.
Proof. apply flat_map_app. Qed.

Lemma case_numbers_add_section story title items :
  case_numbers (_add_section story title items) = case_numbers story.
Proof.
  unfold _add_section. rewrite !case_numbers_app.
  destruct (truthy _); simpl; by rewrite app_nil_r.
Qed.

Lemma image_part_no_heading path :
  case_numbers (Py.try_except (image_block path)
                              (fun _ => [image_placeholder])) = [].
Proof.
  unfold image_block. destruct (PILImage_open path) as [img|]; simpl; [|done].
  destruct (picture_width img =? 0)%Z; simpl; [done|].
  by destruct (save_png img).
Qed.

(** [_add_case] only appends to the story it is given. *)
Lemma _add_case_app story case n :
  _add_case story case n
  = match _add_case [] case n with
    | Py.OK body => Py.OK (story ++ body)%list
    | Py.Raise e => Py.Raise e
    end.
Proof.
  unfold _add_case.
  set (img := Py.try_except _ _).
  set (heading := Paragraph _ "CaseNumber").
  set (diag := [Table _ _; Spacer 1 20]).
  replace (((story ++ [heading]) ++ img) ++ diag)%list
    with (story ++ ((([] ++ [heading]) ++ img) ++ diag))%list
    by (simpl; by rewrite <- !app_assoc).
  rewrite _add_section_app.
  destruct (management case) as [m|]; simpl.
  - destruct (Py.getitem m "Immediate Action") as [immediate|]; simpl; [|done].
    destruct (Py.getitem m "Long-term Plan") as [long_term|]; simpl; [|done].
    rewrite !_add_section_app.
    destruct (recommendations case); by rewrite ?_add_section_app.
  - destruct (recommendations case); by rewrite ?_add_section_app.
Qed.

Lemma _add_case_heading case n body :
  _add_case [] case n = Py.OK body ->
  case_numbers body = ["Case #" ++ pretty n].
Proof.
  unfold _add_case.
  pose proof (image_part_no_heading (case_image_path case)) as Himg.
  set (img := Py.try_except _ _) in *.
  destruct (management case) as [m|].
  - destruct (Py.getitem m "Immediate Action") as [immediate|]; [|done].
    destruct (Py.getitem m "Long-term Plan") as [long_term|]; [|done].
    cbn [mbind mret Py.result_bind Py.result_ret]. intros [= <-].
    destruct (recommendations case); rewrite !case_numbers_add_section;
      match goal with
      | |- case_numbers (?a :: ?l) = ?r =>
          change (case_numbers ([a] ++ l) = r)
      end;
      rewrite !case_numbers_app, Himg; done.
  - cbn [mbind mret Py.result_bind Py.result_ret]. intros [= <-].
    destruct (recommendations case); rewrite !case_numbers_add_section;
      match goal with
      | |- case_numbers (?a :: ?l) = ?r =>
          change (case_numbers ([a] ++ l) = r)
      end;
      rewrite !case_numbers_app, Himg; done.
Qed.

(** A case with both phases of the management plan is rendered, whatever
    happens to its image. *)
Lemma _add_case_complete_plan case n m :
  management case = Some m -> complete_plan m = true ->
  exists body, _add_case [] case n = Py.OK body.
Proof.
  intros Hm Hc. unfold _add_case, Py.getitem. rewrite Hm.
  unfold complete_plan in Hc.
  destruct (m !! "Immediate Action"); [|done].
  destruct (m !! "Long-term Plan"); [|done].
  by eexists.
Qed.

(** The loop over the cases: the story grows by the sections of the
    cases, numbered from the start index on. *)
Lemma add_cases_loop cases : forall story n,
  Py.for_each
    (fun (acc : list Flowable * nat) case =>
       story ← _add_case acc.1 case acc.2;
       mret ((story ++ [Spacer 1 30])%list, S acc.2))
    (story, n) cases
  = match Py.for_each
            (fun (acc : list Flowable * nat) case =>
               story ← _add_case acc.1 case acc.2;
               mret ((story ++ [Spacer 1 30])%list, S acc.2))
            ([], n) cases with
    | Py.OK acc => Py.OK ((story ++ acc.1)%list, acc.2)
    | Py.Raise e => Py.Raise e
    end.
Proof.
  induction cases as [|case cases IH]; intros story n; simpl.
  - by rewrite app_nil_r.
  - rewrite (_add_case_app story).
    destruct (_add_case [] case n) as [body|]; simpl; [|done].
    rewrite (IH (body ++ [Spacer 1 30])%list), (IH ((story ++ body) ++ _)%list).
    destruct (Py.for_each _ _ cases) as [[rest m]|]; simpl; [|done].
    by rewrite <- !app_assoc.
Qed.

Lemma add_cases_headings cases : forall n acc,
  Py.for_each
    (fun (acc : list Flowable * nat) case =>
       story ← _add_case acc.1 case acc.2;
       mret ((story ++ [Spacer 1 30])%list, S acc.2))
    ([], n) cases = Py.OK acc ->
  case_numbers acc.1
  = map (fun i => "Case #" ++ pretty i) (seq n (length cases))
  /\ (cases = [] -> acc.1 = []).
Proof.
  induction cases as [|case cases IH]; intros n acc; simpl.
  - by intros [= <-].
  - destruct (_add_case [] case n) as [body|] eqn:Hb; simpl; [|done].
    rewrite add_cases_loop.
    destruct (Py.for_each _ _ cases) as [rest|] eqn:Hr; simpl; [|done].
    intros [= <-]. destruct (IH _ _ Hr) as [Hrest _].
    split; [|done]. cbn [fst snd length seq map].
    rewrite !case_numbers_app, Hrest, (_add_case_heading _ _ _ Hb). done.
Qed.

Lemma generate_report_inv file_path cases fs fs' :
  generate_report file_path cases fs = Py.OK fs' ->
  can_write file_path = true
  /\ exists body,
       fs' = <[file_path := (_add_header [] ++ body)%list]> fs
       /\ case_numbers body
          = map (fun i => "Case #" ++ pretty i) (seq 1 (length cases))
       /\ (cases = [] -> body = [])
       /\ layout (_add_header [] ++ body)%list = Py.OK tt.
Proof.
  unfold generate_report, add_cases. rewrite add_cases_loop.
  destruct (Py.for_each _ _ cases) as [acc|] eqn:Ha; simpl; [|done].
  unfold build.
  match goal with
  | |- context [layout ?story] => destruct (layout story) as [[]|] eqn:Hl
  end; simpl; [|done].
  destruct (can_write file_path); simpl; [|done].
  intros [= <-]. split; [done|]. exists acc.1.
  destruct (add_cases_headings _ _ _ Ha) as [Hn He]. done.
Qed.

(** X12: a report that is generated is the header followed by the
    sections of the cases; these carry the headings "Case #1", "Case #2",
    ... in the order of the cases, one per case. The document is written at
    the given path only, and for an empty list of cases the generator
    itself writes the header alone (the guard against an empty batch is in
    its callers). *)
Theorem generate_report_story file_path cases fs fs' :
  generate_report file_path cases fs = Py.OK fs' ->
  exists body,
    fs' !! file_path = Some (_add_header [] ++ body)%list
    /\ length (_add_header []) = 3%nat
    /\ case_numbers body
       = map (fun i => "Case #" ++ pretty i) (seq 1 (length cases))
    /\ (cases = [] -> body = [])
    /\ (forall other, other <> file_path -> fs' !! other = fs !! other).
Proof.
  intros Hg. apply generate_report_inv in Hg as (_ & body & -> & Hn & He & _).
  exists body. rewrite lookup_insert_eq. repeat split; try done.
  intros other Ho. by rewrite lookup_insert_ne.
Qed.

(** *** Exporting a batch *)

Lemma prepare_case_data_known card p rest :
  predictions card = p :: rest ->
  primary_diagnosis card ∈ DiagnosisData.known_labels ->
  exists case m,
    prepare_case_data card = Py.OK case
    /\ management case = Some m /\ complete_plan m = true.
Proof.
  intros Hp Hl. unfold prepare_case_data. rewrite Hp. simpl.
  rewrite <- management_keys in Hl. apply list_to_map_is_Some in Hl as [m Hm].
  change (list_to_map DiagnosisData.management_items)
    with DiagnosisData.MANAGEMENT_MAP in Hm.
  eexists _, m. split; [reflexivity|]. simpl. unfold Py.get. rewrite Hm.
  split; [done|]. by apply (management_lookup_complete _ _ Hm).
Qed.

Lemma add_cases_returns cases : forall n,
  Forall (fun case => exists m, management case = Some m
                                /\ complete_plan m = true) cases ->
  exists acc,
    Py.for_each
      (fun (acc : list Flowable * nat) case =>
         story ← _add_case acc.1 case acc.2;
         mret ((story ++ [Spacer 1 30])%list, S acc.2))
      ([], n) cases = Py.OK acc.
Proof.
  induction cases as [|case cases IH]; intros n Hall; simpl; [by eexists|].
  apply Forall_cons in Hall as [(m & Hm & Hc) Hall].
  destruct (_add_case_complete_plan case n m Hm Hc) as [body ->]. simpl.
  rewrite add_cases_loop. destruct (IH (S n) Hall) as [acc ->]. by eexists.
Qed.

Lemma collect_cases_known cards :
  Forall (fun card => predictions card <> []
                      /\ primary_diagnosis card ∈ DiagnosisData.known_labels)
         cards ->
  exists cases,
    collect_cases cards = Py.OK cases
    /\ length cases = length cards
    /\ Forall (fun case => exists m, management case = Some m
                                     /\ complete_plan m = true) cases.
Proof.
  unfold collect_cases.
  induction 1 as [|card cards [Hp Hl] _ (cases & Hc & Hlen & Hplans)];
    [by exists []|].
  destruct (predictions card) as [|p rest] eqn:Hpred; [done|].
  destruct (prepare_case_data_known card p rest Hpred Hl)
    as (case & m & Hcase & Hm & Hplan).
  exists (case :: cases). simpl. rewrite Hcase. simpl. rewrite Hc. simpl.
  split; [done|]. split; [by rewrite Hlen|].
  constructor; [by exists m|done].
Qed.

(** X13: for a batch in which every card has a known diagnosis, the
    sections of the report are always built, one numbered section per card,
    whether or not the images of the cases can still be opened. With a file
    name chosen, the export then succeeds when reportlab can lay the story
    out and the file can be written; when the layout fails (an image too
    high for the page, say) the export reports the failure and writes
    nothing. *)
Theorem export_known_diagnoses file_name st fs :
  grid st <> [] ->
  Forall (fun card => predictions card <> []
                      /\ primary_diagnosis card ∈ DiagnosisData.known_labels)
         (grid st) ->
  file_name <> "" ->
  exists cases acc,
    collect_cases (grid st) = Py.OK cases
    /\ add_cases [] cases = Py.OK acc
    /\ case_numbers acc.1
       = map (fun i => "Case #" ++ pretty i) (seq 1 (length (grid st)))
    /\ (layout (_add_header [] ++ acc.1)%list = Py.OK tt ->
        can_write file_name = true ->
        export_report file_name st fs
        = (show (information "Success" "Report exported successfully!") st,
           <[file_name := (_add_header [] ++ acc.1)%list]> fs))
    /\ (forall e,
          layout (_add_header [] ++ acc.1)%list = Py.Raise e ->
          export_report file_name st fs
          = (show (critical "Error"
                     ("Failed to export report: " ++ Py.str_exn e)) st, fs)).
Proof.
  intros Hne Hall Hf.
  destruct (collect_cases_known _ Hall) as (cases & Hc & Hlen & Hplans).
  destruct (add_cases_returns cases 1 Hplans) as [acc Ha].
  destruct (add_cases_headings _ _ _ Ha) as [Hn _].
  exists cases, acc. split; [exact Hc|]. split; [exact Ha|].
  split; [by rewrite <- Hlen|].
  assert (generate_report file_name cases fs
          = build file_name (_add_header [] ++ acc.1)%list fs) as Hgen.
  { unfold generate_report, add_cases. rewrite add_cases_loop, Ha. done. }
  assert (forall outcome,
            _generate_pdf_report file_name st fs = outcome ->
            export_report file_name st fs
            = match outcome with
              | Py.OK fs' =>
                  (show (information "Success" "Report exported successfully!")
                        st, fs')
              | Py.Raise e =>
                  (show (critical "Error"
                           ("Failed to export report: " ++ Py.str_exn e)) st,
                   fs)
              end) as Hexport.
  { intros outcome <-. unfold export_report.
    destruct (grid st) as [|card cards]; [done|].
    destruct (Z.leb_spec (Z.of_nat (length (card :: cards)) + 1) 1)
      as [Hle|_]; [simpl in Hle; lia|].
    by destruct (decide (file_name = "")). }
  assert (_generate_pdf_report file_name st fs
          = build file_name (_add_header [] ++ acc.1)%list fs) as Hpdf.
  { unfold _generate_pdf_report. rewrite Hc. simpl.
    destruct cases as [|case cases]; [by destruct (grid st)|]. exact Hgen. }
  split.
  - intros Hl Hw. rewrite (Hexport _ Hpdf). unfold build. by rewrite Hl, Hw.
  - intros e Hl. rewrite (Hexport _ Hpdf). unfold build. by rewrite Hl.
Qed.

Lemma prepare_case_data_outcome card :
  (predictions card = []
   /\ prepare_case_data card
      = Py.Raise (Py.IndexError "list index out of range"))
  \/ (predictions card <> []
      /\ exists case, prepare_case_data card = Py.OK case).
Proof.
  unfold prepare_case_data.
  destruct (predictions card); [by left|right]. split; [done|by eexists].
Qed.

Lemma collect_cases_raise cards : forall e,
  collect_cases cards = Py.Raise e ->
  e = Py.IndexError "list index out of range"
  /\ exists card, card ∈ cards /\ predictions card = [].
Proof.
  unfold collect_cases.
  induction cards as [|card cards IH]; intros e; simpl; [done|].
  destruct (prepare_case_data_outcome card) as [[Hp ->]|[_ [case ->]]]; simpl.
  - intros [= <-]. split; [done|]. exists card. split; [by left|done].
  - destruct (Py.comprehension prepare_case_data cards) as [cases|e']; simpl;
      [done|].
    intros [= <-]. destruct (IH e' eq_refl) as (-> & c & Hin & Hc).
    split; [done|]. exists c. split; [by right|done].
Qed.

Lemma collect_cases_empty_predictions cards card :
  card ∈ cards -> predictions card = [] ->
  collect_cases cards = Py.Raise (Py.IndexError "list index out of range").
Proof.
  intros Hin Hp. unfold collect_cases.
  induction cards as [|c cards IH]; simpl; [by apply elem_of_nil in Hin|].
  destruct (prepare_case_data_outcome c) as [[_ ->]|[Hne [case Hc]]]; [done|].
  apply elem_of_cons in Hin as [<-|Hin]; [done|].
  rewrite Hc. simpl. by rewrite (IH Hin).
Qed.

(** X14: a card built from an empty prediction list cannot be exported:
    [prepare_case_data] reads [predictions[0]] without a guard, so
    collecting the cases raises [IndexError] exactly when some card of the
    grid has no prediction, and the export then reports the failure and
    writes nothing. *)
Theorem export_card_without_predictions file_name st fs :
  ((exists card, card ∈ grid st /\ predictions card = []) <->
   collect_cases (grid st)
   = Py.Raise (Py.IndexError "list index out of range"))
  /\ (forall e, collect_cases (grid st) = Py.Raise e ->
                e = Py.IndexError "list index out of range")
  /\ ((exists card, card ∈ grid st /\ predictions card = []) ->
      file_name <> "" ->
      export_report file_name st fs
      = (show (critical "Error"
                 "Failed to export report: list index out of range") st, fs)).
Proof.
  split; [|split].
  - split.
    + intros (card & Hin & Hp). by apply (collect_cases_empty_predictions _ card).
    + intros Hc. by apply collect_cases_raise in Hc as [_ ?].
  - intros e Hc. by apply collect_cases_raise in Hc as [? _].
  - intros (card & Hin & Hp) Hf.
    pose proof (collect_cases_empty_predictions _ card Hin Hp) as Hc.
    unfold export_report, _generate_pdf_report. rewrite Hc. simpl.
    destruct (grid st) as [|c cards]; [by apply elem_of_nil in Hin|].
    destruct (Z.leb_spec (Z.of_nat (length (c :: cards)) + 1) 1) as [Hle|_];
      [simpl in Hle; lia|].
    by destruct (decide (file_name = "")).
Qed.

(** X15: [export_report] never changes the cards, the progress bar or the
    workers, shows at most one message box, and leaves every file other
    than the chosen one as it was; the chosen file is written only when
    the success message is shown. *)
Theorem export_report_frame file_name st fs :
  let st' := (export_report file_name st fs).1 in
  let fs' := (export_report file_name st fs).2 in
  grid st' = grid st
  /\ progress_bar st' = progress_bar st
  /\ workers st' = workers st
  /\ (dialogs st' = dialogs st \/ exists d, dialogs st' = (dialogs st ++ [d])%list)
  /\ (forall other, other <> file_name -> fs' !! other = fs !! other)
  /\ (fs' = fs
      \/ dialogs st'
         = (dialogs st
            ++ [information "Success" "Report exported successfully!"])%list).
Proof.
  simpl. unfold export_report.
  destruct (Z.of_nat (length (grid st)) + 1 <=? 1)%Z; simpl.
  { repeat split; eauto. }
  destruct (decide (file_name = "")); simpl.
  { repeat split; eauto. }
  destruct (_generate_pdf_report file_name st fs) as [fs'|e] eqn:Hg; simpl.
  - repeat split; eauto.
    intros other Ho. unfold _generate_pdf_report in Hg.
    destruct (collect_cases (grid st)) as [cases|]; simpl in Hg; [|done].
    destruct (negb (truthy cases)); [done|].
    apply generate_report_inv in Hg as (_ & body & -> & _).
    by rewrite lookup_insert_ne.
  - repeat split; eauto.
Qed.

(** *** The card and the report *)

Lemma ImageCard_init_container path p rest card :
  ImageCard_init path (p :: rest) = Py.OK card ->
  image_path card = path
  /\ predictions card = p :: rest
  /\ primary_diagnosis card = Str.lower p.1
  /\ exists sections,
       container card
       = ([ ImageLabel path;
            Label ("🔍 Diagnosis: " ++ Str.title (Str.lower p.1));
            _create_findings_group (Str.lower p.1);
            GroupBox "" [ Label "🎯 Confidence Score";
                          Label (format_1f (p.2 * 100)%Q ++ "%") ] ]
          ++ sections ++ _add_recommendations_section (Str.lower p.1))%list.
Proof.
  unfold ImageCard_init, setup_ui, _add_confidence_section, confidence_score.
  simpl.
  destruct (_add_management_section_returns (Str.lower p.1)) as [ws ->].
  simpl. intros [= <-]. simpl. repeat split. by exists ws.
Qed.

(** X16: the report says what the card shows. For a card built from a
    non-empty prediction list, the case made from it has the card's image
    path, the diagnosis of the card's header, the confidence the card
    displays (the top confidence times 100), and as findings the texts of
    the card's findings group, in the same order. *)
Theorem report_case_matches_card path preds card case :
  ImageCard_init path preds = Py.OK card ->
  prepare_case_data card = Py.OK case ->
  case_image_path case = path
  /\ container card !! 1%nat
     = Some (Label ("🔍 Diagnosis: " ++ diagnosis case))
  /\ container card !! 2%nat
     = Some (GroupBox "📋 Initial Radiographic Assessment"
               (map Label (findings case)))
  /\ container card !! 3%nat
     = Some (GroupBox "" [ Label "🎯 Confidence Score";
                           Label (format_1f (confidence case) ++ "%") ])
  /\ recommendations case = Some (_get_recommendations (primary_diagnosis card))
  /\ exists top rest, preds = top :: rest
                      /\ confidence case = (top.2 * 100)%Q
                      /\ diagnosis case = Str.title (Str.lower top.1).
Proof.
  intros Hcard Hcase.
  destruct preds as [|top rest].
  { destruct (ImageCard_init_returns path []) as [ws Hc].
    rewrite Hc in Hcard. injection Hcard as <-. discriminate Hcase. }
  destruct (ImageCard_init_container _ _ _ _ Hcard)
    as (Hpath & Hpreds & Hprim & sections & Hcont).
  unfold prepare_case_data in Hcase. rewrite Hpreds, Hprim in Hcase.
  simpl in Hcase. injection Hcase as <-. simpl.
  rewrite Hcont, Hprim. simpl.
  split; [done|]. split; [done|]. split.
  - unfold _create_findings_group. by rewrite map_map.
  - split; [done|]. split; [done|]. by exists top, rest.
Qed.

(** *** The pairs that [predict] returns *)



End DentAI.

(** ** The definitions at work on the small instance *)

Local Abbreviation toy_init :=
  (ModelHandler_init Toy.path_exists Toy.torch_load Toy.load_state_dict).
Local Abbreviation toy_predict :=
  (predict Toy.net_eval Toy.net_train Toy.softmax Toy.topk).
Local Abbreviation toy_run :=
  (run Toy.open_rgb Toy.transform Toy.net_eval Toy.net_train Toy.softmax
       Toy.topk).
Local Abbreviation toy_card := (ImageCard_init Toy.format_1f).
Local Abbreviation toy_failed_card := (failed_card Toy.format_1f).
Local Abbreviation toy_deliver_all := (deliver_all Toy.format_1f).
Local Abbreviation toy_export :=
  (export_report Toy.format_1f Toy.PILImage_open fst snd Toy.save_png Toy.float_scale
                 Toy.now Toy.can_write Toy.layout).
Local Abbreviation toy_generate :=
  (_generate_pdf_report Toy.format_1f Toy.PILImage_open fst snd Toy.save_png Toy.float_scale
                        Toy.now Toy.can_write Toy.layout).
Local Abbreviation toy_handler :=
  (mkHandler "initial_model.pth" the_class_names
             (mkModule [1; 5; 2; 8; 1; 1; 1; 1]%Q false)).

Example toy_handler_loaded : toy_init "initial_model.pth" = Py.OK toy_handler.
Proof. reflexivity. Qed.

Example toy_prediction :
  (toy_predict toy_handler 0%nat "molar.png" 3).1.1
  = [ ("periapical abcess", 2 # 5); ("condensing osteitis", 1 # 4);
      ("diffuse lesion", 1 # 10) ]%Q.
Proof. reflexivity. Qed.

(** In training mode the same call repeated gives another list: the
    evaluation mode set by [_initialize_model] is what C9 rests on. *)
Example training_mode_predictions_differ :
  let h := mkHandler "initial_model.pth" the_class_names
             (mkModule [1; 5; 2; 8; 1; 1; 1; 1]%Q true) in
  let first := toy_predict h 0%nat "molar.png" 3 in
  let second := toy_predict first.1.2 first.2 "molar.png" 3 in
  first.1.1 <> second.1.1.
Proof. vm_compute. discriminate. Qed.

(** *** Instances of the theorems *)

Lemma knowledge_base_lookups_witness :
  (_get_findings_for_diagnosis "pericoronitis" <> []
   /\ _get_recommendations "pericoronitis" <> [])
  /\ (_get_findings_for_diagnosis "error" = []
      /\ _get_recommendations "error" = []).
Proof.
  destruct knowledge_base_lookups as (_ & Hknown & Hunknown).
  split; [apply Hknown | apply Hunknown].
  - apply (bool_decide_unpack _). vm_compute. exact I.
  - apply (proj1 (bool_decide_eq_false _)). vm_compute. reflexivity.
Defined.

Lemma export_empty_batch_witness :
  grid Toy.window = []
  /\ toy_generate "report.pdf" Toy.window ∅
     = Py.Raise (Py.ValueError "No cases to export")
  /\ toy_export "report.pdf" Toy.window ∅
     = (show (warning "Warning" "No images to export!") Toy.window, ∅).
Proof.
  assert (grid Toy.window = []) as Hg by reflexivity.
  split; [exact Hg|].
  exact (proj2 (export_empty_batch Toy.format_1f Toy.PILImage_open fst snd
                  Toy.save_png Toy.float_scale Toy.now Toy.can_write Toy.layout "report.pdf"
                  Toy.window ∅ Hg)).
Defined.

Lemma add_case_unknown_label_raises_witness :
  (Str.lower "Error" ∉ DiagnosisData.known_labels)
  /\ exists card case,
       toy_card "corrupt.png" error_result = Py.OK card
       /\ prepare_case_data card = Py.OK case
       /\ management case = Some ∅
       /\ forall story n,
            _add_case Toy.format_1f Toy.PILImage_open fst snd Toy.save_png Toy.float_scale
                      story case n
            = Py.Raise (Py.KeyError "Immediate Action").
Proof.
  assert (Str.lower "Error" ∉ DiagnosisData.known_labels) as Hl.
  { apply (proj1 (bool_decide_eq_false _)). vm_compute. reflexivity. }
  split; [exact Hl|].
  exact (add_case_unknown_label_raises Toy.format_1f Toy.PILImage_open fst snd
           Toy.save_png Toy.float_scale "corrupt.png" "Error" 0%Q [] Hl).
Defined.

Lemma export_failed_case_raises_witness :
  let st := mkWindow (mkBar 0 1 1 false) [toy_failed_card "corrupt.png"] [] [] in
  Toy.PILImage_open "corrupt.png"
  = Py.Raise (Py.OSError "cannot identify image file")
  /\ toy_generate "report.pdf" st ∅ = Py.Raise (Py.KeyError "Immediate Action")
  /\ toy_export "report.pdf" st ∅
     = (show (critical "Error" "Failed to export report: 'Immediate Action'")
             st, ∅).
Proof.
  intros st.
  assert (Toy.PILImage_open "corrupt.png"
          = Py.Raise (Py.OSError "cannot identify image file")) as Ho
    by reflexivity.
  assert (grid st = [toy_failed_card "corrupt.png"]) as Hg by reflexivity.
  assert ("report.pdf" <> "") as Hf by discriminate.
  split; [exact Ho|].
  exact (proj2 (export_failed_case_raises Toy.format_1f Toy.PILImage_open
                  fst snd Toy.save_png Toy.float_scale Toy.now Toy.can_write Toy.layout "report.pdf"
                  "corrupt.png" _ st ∅ Ho Hg Hf)).
Defined.

Lemma failed_case_collected_witness :
  exists good cases case,
    "pericoronitis" ∈ the_class_names
    /\ toy_card "molar.png" [("pericoronitis", 9 # 10)] = Py.OK good
    /\ primary_diagnosis good <> "error"
    /\ collect_cases ([good] ++ [toy_failed_card "corrupt.png"]) = Py.OK cases
    /\ diagnosis case = "Error"
    /\ case ∈ cases.
Proof.
  destruct (failed_case_collected Toy.format_1f "corrupt.png")
    as (_ & _ & _ & _ & _ & Hdistinct & _ & Hall).
  assert ("pericoronitis" ∈ the_class_names) as Hl.
  { apply (bool_decide_unpack _). vm_compute. exact I. }
  destruct (toy_card "molar.png" [("pericoronitis", 9 # 10)]) as [good|]
    eqn:Hgood; [|discriminate].
  destruct (Hall [good] []) as (cases & case & Hc & _ & Hd & Hin).
  { constructor; [|constructor].
    injection Hgood as <-. discriminate. }
  exists good, cases, case.
  split; [exact Hl|]. split; [reflexivity|].
  split; [exact (proj2 (Hdistinct _ _ _ _ _ Hl Hgood))|].
  split; [exact Hc|]. split; [exact Hd|exact Hin].
Defined.

Lemma predict_deterministic_witness :
  let first := toy_predict toy_handler 7%nat "molar.png" 3 in
  let second := toy_predict first.1.2 first.2 "molar.png" 3 in
  toy_init "initial_model.pth" = Py.OK toy_handler
  /\ first.1.1 = second.1.1.
Proof.
  intros first second.
  assert (toy_init "initial_model.pth" = Py.OK toy_handler) as Hinit
    by reflexivity.
  split; [exact Hinit|].
  exact (proj1 (predict_deterministic Toy.path_exists Toy.torch_load
                  Toy.load_state_dict Toy.net_eval Toy.net_train Toy.softmax
                  Toy.topk "initial_model.pth" toy_handler 7%nat "molar.png" 3
                  first.1.1 first.1.2 first.2 second.1.1 second.1.2 second.2
                  Hinit eq_refl eq_refl)).
Defined.

Lemma run_signals_witness :
  (preprocess_image Toy.open_rgb Toy.transform "corrupt.png" = None
   /\ (toy_run (mkWorker "corrupt.png" 3 false) toy_handler 0%nat).1.1
      = [ error "Failed to preprocess image";
          finished error_result "corrupt.png" ])
  /\ (preprocess_image Toy.open_rgb Toy.transform "huge.png" = Some "huge.png"
      /\ (toy_run (mkWorker "huge.png" 3 false) toy_handler 0%nat).1.1
         = [ finished error_result "huge.png" ])
  /\ (preprocess_image Toy.open_rgb Toy.transform "molar.png" = Some "molar.png"
      /\ (toy_run (mkWorker "molar.png" 3 false) toy_handler 0%nat).1.1
         = [ finished (toy_predict toy_handler 0%nat "molar.png" 3).1.1
                      "molar.png" ]).
Proof.
  split; [|split]; (split; [reflexivity|]).
  - destruct (run_signals Toy.open_rgb Toy.transform Toy.net_eval Toy.net_train
                Toy.softmax Toy.topk (mkWorker "corrupt.png" 3 false)
                toy_handler 0%nat) as (_ & Hpre & _ & _).
    apply Hpre. reflexivity.
  - destruct (run_signals Toy.open_rgb Toy.transform Toy.net_eval Toy.net_train
                Toy.softmax Toy.topk (mkWorker "huge.png" 3 false)
                toy_handler 0%nat) as (_ & _ & _ & Hfail).
    apply (Hfail "huge.png" (Py.Raise (Py.RuntimeError "out of memory"))
             (model toy_handler) 0%nat (Py.RuntimeError "out of memory"));
      reflexivity.
  - destruct (run_signals Toy.open_rgb Toy.transform Toy.net_eval Toy.net_train
                Toy.softmax Toy.topk (mkWorker "molar.png" 3 false)
                toy_handler 0%nat) as (_ & _ & Hok & _).
    apply Hok. reflexivity.
Defined.

Lemma batch_progress_witness :
  let file_names := ["molar.png"; "corrupt.png"; "canine.png"] in
  let out f := (toy_run (mkWorker f 3 false) toy_handler 0%nat).1.1 in
  let delivered := (out "canine.png" ++ out "molar.png" ++ out "corrupt.png")%list in
  length (filter (fun s => is_finished s = true) delivered) = 3%nat
  /\ length (filter (fun s => is_error s = true) delivered) = 1%nat
  /\ length (grid (toy_deliver_all (load_images file_names Toy.window)
                                   delivered)) = 3%nat
  /\ value (progress_bar
              (toy_deliver_all (load_images file_names Toy.window) delivered))
     = 3.
Proof.
  intros file_names out delivered.
  assert (file_names <> []) as Hne by discriminate.
  assert (minimum (progress_bar Toy.window) = 0) as Hmin by reflexivity.
  assert (batch_signals Toy.open_rgb Toy.transform Toy.net_eval Toy.net_train
            Toy.softmax Toy.topk file_names (map out file_names)) as Hb.
  { repeat constructor; eexists (mkWorker _ 3 false), toy_handler, 0%nat;
      split; reflexivity. }
  assert (delivered ≡ₚ concat (map out file_names)) as Hp.
  { subst delivered. cbn [map concat file_names]. rewrite app_nil_r.
    rewrite (app_assoc (out "molar.png")). apply Permutation_app_comm. }
  destruct (batch_progress Toy.format_1f Toy.open_rgb Toy.transform
              Toy.net_eval Toy.net_train Toy.softmax Toy.topk
              file_names Toy.window _ delivered Hne Hmin Hb Hp)
    as (Hcount & _ & Hvalue & _).
  split; [exact Hcount|]. split; [reflexivity|].
  split; [reflexivity|exact Hvalue].
Defined.

(** *** Where the code departs from the stated properties *)

(** C1: the case of a failed inference is among the cases handed to the
    report generator. *)
Lemma failed_case_reaches_exporter :
  ~ (forall cards cases card case,
       card ∈ cards ->
       predictions card = error_result ->
       collect_cases cards = Py.OK cases ->
       prepare_case_data card = Py.OK case ->
       case ∉ cases).
Proof.
  intros H.
  apply (H [toy_failed_card "corrupt.png"]
           [mkCase "corrupt.png" "Error" (0 * 100)%Q [] (Some []) (Some ∅)]
           (toy_failed_card "corrupt.png")
           (mkCase "corrupt.png" "Error" (0 * 100)%Q [] (Some []) (Some ∅)));
    try reflexivity; by left.
Qed.

(** C2: the error slot moves the progress bar of a one-image batch from 0
    to 1. *)
Lemma error_slot_advances_counter :
  ~ (forall message st,
       value (progress_bar (_handle_prediction_error message st))
       = value (progress_bar st)).
Proof.
  intros H.
  specialize (H "Failed to preprocess image"
                (load_images ["corrupt.png"] Toy.window)).
  vm_compute in H. discriminate H.
Qed.

(** C3: the forward pass fails on "huge.png"; the worker emits the fallback
    pair through the completion signal and no error signal. *)
Lemma predict_failure_emits_no_error :
  ~ (forall w h g,
       inference_fails Toy.open_rgb Toy.transform Toy.net_eval Toy.net_train
                       Toy.softmax Toy.topk w h g ->
       exists message,
         (toy_run w h g).1.1
         = [ error message; finished error_result (worker_image_path w) ]).
Proof.
  intros H.
  destruct (H (mkWorker "huge.png" 3 false) toy_handler 0%nat) as [m Hm].
  - by exists (Py.RuntimeError "out of memory").
  - discriminate Hm.
Qed.

(** *** Instances of the further properties *)

Local Abbreviation toy_generate_report :=
  (generate_report Toy.format_1f Toy.PILImage_open fst snd Toy.save_png Toy.float_scale
                   Toy.now Toy.can_write Toy.layout).
Local Abbreviation toy_grid :=
  (match toy_card "molar.png" [("pericoronitis", 9 # 10)%Q],
         toy_card "corrupt.png" [("radicular cyst", 7 # 10)%Q] with
   | Py.OK c1, Py.OK c2 => [c1; c2]
   | _, _ => []
   end).
Local Abbreviation toy_batch := (mkWindow (mkBar 0 2 2 false) toy_grid [] []).
Local Abbreviation toy_tall_batch :=
  (mkWindow (mkBar 0 1 1 false)
            (match toy_card "tall.png" [("pericoronitis", 9 # 10)%Q] with
             | Py.OK c => [c]
             | _ => []
             end) [] []).

Lemma knowledge_base_tables_agree_witness :
  "pericoronitis" ∈ DiagnosisData.known_labels
  /\ is_Some (DiagnosisData.MANAGEMENT_MAP !! "pericoronitis")
  /\ exists m immediate long_term,
       DiagnosisData.MANAGEMENT_MAP !! "pericoronitis" = Some m
       /\ m !! "Immediate Action" = Some immediate
       /\ m !! "Long-term Plan" = Some long_term
       /\ length immediate = 3%nat /\ length long_term = 3%nat.
Proof.
  destruct (knowledge_base_tables_agree "pericoronitis")
    as (_ & _ & _ & _ & Hm & Hplan).
  assert ("pericoronitis" ∈ DiagnosisData.known_labels) as Hl.
  { apply (bool_decide_unpack _). vm_compute. exact I. }
  split; [exact Hl|]. split; [by apply Hm|].
  destruct (proj2 Hm Hl) as [m Hlookup].
  destruct (Hplan m Hlookup) as (_ & immediate & long_term & Hi & Hlt & Hn).
  by exists m, immediate, long_term.
Defined.

Lemma card_of_known_label_witness :
  "pericoronitis" ∈ the_class_names
  /\ exists card,
       toy_card "molar.png" [("pericoronitis", 9 # 10)%Q] = Py.OK card
       /\ length (container card) = 6%nat.
Proof.
  assert ("pericoronitis" ∈ the_class_names) as Hl.
  { apply (bool_decide_unpack _). vm_compute. exact I. }
  split; [exact Hl|].
  destruct (card_of_known_label Toy.format_1f "molar.png" "pericoronitis"
              (9 # 10)%Q [] Hl) as (found & plan & recs & Hcard & _).
  eexists. split; [exact Hcard|reflexivity].
Defined.

Lemma _initialize_model_outcome_witness :
  _initialize_model Toy.path_exists Toy.torch_load Toy.load_state_dict
                    "initial_model.pth"
  = Py.OK (mkModule [1; 5; 2; 8; 1; 1; 1; 1]%Q false)
  /\ _initialize_model Toy.path_exists Toy.torch_load Toy.load_state_dict
                       "missing.pth"
     = Py.Raise (Py.FileNotFoundError "Model file 'missing.pth' not found!")
  /\ _initialize_model Toy.path_exists
                       (fun _ => Py.OK (∅ : gmap string (list Q)))
                       Toy.load_state_dict "initial_model.pth"
     = Py.Raise (Py.KeyError "Invalid checkpoint format").
Proof.
  split; [|split].
  - apply (proj1 (_initialize_model_outcome Toy.path_exists Toy.torch_load
                    Toy.load_state_dict "initial_model.pth")).
    split; [reflexivity|].
    eexists _, _, _. repeat split; reflexivity.
  - apply (proj1 (proj2 (_initialize_model_outcome Toy.path_exists
                           Toy.torch_load Toy.load_state_dict "missing.pth"))).
    reflexivity.
  - apply (proj2 (proj2 (_initialize_model_outcome Toy.path_exists
                           (fun _ => Py.OK (∅ : gmap string (list Q)))
                           Toy.load_state_dict "initial_model.pth")) ∅);
      reflexivity.
Defined.

Lemma run_error_signal_witness :
  let signals := (toy_run (mkWorker "corrupt.png" 3 false) toy_handler 0%nat).1.1 in
  Toy.open_rgb "corrupt.png"
  = Py.Raise (Py.OSError "cannot identify image file")
  /\ (exists message, error message ∈ signals)
  /\ signals = [ error "Failed to preprocess image";
                 finished error_result "corrupt.png" ].
Proof.
  intros signals.
  destruct (run_error_signal Toy.open_rgb Toy.transform Toy.net_eval
              Toy.net_train Toy.softmax Toy.topk
              (mkWorker "corrupt.png" 3 false) toy_handler 0%nat)
    as (Hiff & Hshape & _ & _).
  assert (Toy.open_rgb "corrupt.png"
          = Py.Raise (Py.OSError "cannot identify image file")) as Ho
    by reflexivity.
  assert (exists message, error message ∈ signals) as [message Hm].
  { apply Hiff. left. eexists. exact Ho. }
  split; [exact Ho|]. split; [by exists message|].
  exact (Hshape message Hm).
Defined.

Lemma run_leaves_handler_witness :
  toy_init "initial_model.pth" = Py.OK toy_handler
  /\ (toy_run (mkWorker "molar.png" 3 false) toy_handler 0%nat).1.2
     = toy_handler
  /\ (toy_run (mkWorker "molar.png" 3 false) toy_handler 0%nat).1.1
     = (toy_run (mkWorker "molar.png" 3 false) toy_handler 5%nat).1.1.
Proof.
  assert (toy_init "initial_model.pth" = Py.OK toy_handler) as Hinit
    by reflexivity.
  split; [exact Hinit|].
  destruct (run_leaves_handler Toy.open_rgb Toy.transform Toy.path_exists
              Toy.torch_load Toy.load_state_dict Toy.net_eval Toy.net_train
              Toy.softmax Toy.topk "initial_model.pth" toy_handler
              (mkWorker "molar.png" 3 false) 0%nat 5%nat Hinit)
    as (Hh & _ & Hs).
  split; [exact Hh|exact Hs].
Defined.

Lemma progress_counts_every_signal_witness :
  let file_names := ["molar.png"; "corrupt.png"; "canine.png"] in
  let signals := [ error "Failed to preprocess image";
                   finished error_result "corrupt.png" ] in
  value (progress_bar
           (toy_deliver_all (load_images file_names Toy.window) signals))
  = 2
  /\ maximum (progress_bar
                (toy_deliver_all (load_images file_names Toy.window) signals))
     = 3.
Proof.
  intros file_names signals.
  assert (file_names <> []) as Hne by discriminate.
  assert (minimum (progress_bar Toy.window) = 0) as Hmin by reflexivity.
  exact (progress_counts_every_signal Toy.format_1f file_names Toy.window
           signals Hne Hmin).
Defined.

Lemma batch_settled_witness :
  let file_names := ["molar.png"; "corrupt.png"; "canine.png"] in
  let out f := (toy_run (mkWorker f 3 false) toy_handler 0%nat).1.1 in
  let delivered := (out "canine.png" ++ out "molar.png" ++ out "corrupt.png")%list in
  visible (progress_bar (load_images file_names Toy.window)) = true
  /\ visible (progress_bar
                (toy_deliver_all (load_images file_names Toy.window) delivered))
     = false.
Proof.
  intros file_names out delivered.
  assert (file_names <> []) as Hne by discriminate.
  assert (minimum (progress_bar Toy.window) = 0) as Hmin by reflexivity.
  assert (batch_signals Toy.open_rgb Toy.transform Toy.net_eval Toy.net_train
            Toy.softmax Toy.topk file_names (map out file_names)) as Hb.
  { repeat constructor; eexists (mkWorker _ 3 false), toy_handler, 0%nat;
      split; reflexivity. }
  assert (delivered ≡ₚ concat (map out file_names)) as Hp.
  { subst delivered. cbn [map concat file_names]. rewrite app_nil_r.
    rewrite (app_assoc (out "molar.png")). apply Permutation_app_comm. }
  exact (batch_settled Toy.format_1f Toy.open_rgb Toy.transform Toy.net_eval
           Toy.net_train Toy.softmax Toy.topk file_names Toy.window _
           delivered Hne Hmin Hb Hp).
Defined.

Lemma generate_report_story_witness :
  let cases := [ mkCase "molar.png" "Pericoronitis" 90 [] None None;
                 mkCase "corrupt.png" "Radicular Cyst" 70 [] None None ] in
  exists fs' body,
    toy_generate_report "report.pdf" cases ∅ = Py.OK fs'
    /\ fs' !! "report.pdf" = Some (_add_header Toy.now [] ++ body)%list
    /\ case_numbers body = ["Case #1"; "Case #2"]
    /\ fs' !! "notes.txt" = None.
Proof.
  intros cases.
  destruct (toy_generate_report "report.pdf" cases ∅) as [fs'|e] eqn:Hg;
    [|exfalso; vm_compute in Hg; discriminate Hg].
  destruct (generate_report_story Toy.format_1f Toy.PILImage_open fst snd
              Toy.save_png Toy.float_scale Toy.now Toy.can_write Toy.layout "report.pdf" cases ∅ fs' Hg)
    as (body & Hfile & _ & Hnumbers & _ & Hother).
  exists fs', body. split; [reflexivity|]. split; [exact Hfile|].
  split; [exact Hnumbers|].
  assert ("notes.txt" <> "report.pdf") as Hne by discriminate.
  exact (Hother "notes.txt" Hne).
Defined.

Lemma export_known_diagnoses_witness :
  length toy_grid = 2%nat
  /\ Toy.PILImage_open "corrupt.png"
     = Py.Raise (Py.OSError "cannot identify image file")
  /\ (exists body,
        toy_export "report.pdf" toy_batch ∅
        = (show (information "Success" "Report exported successfully!")
                toy_batch,
           <[ "report.pdf" := (_add_header Toy.now [] ++ body)%list ]> ∅)
        /\ case_numbers body = ["Case #1"; "Case #2"])
  /\ toy_export "report.pdf" toy_tall_batch ∅
     = (show (critical "Error"
                "Failed to export report: Flowable too large on page")
             toy_tall_batch, ∅).
Proof.
  split; [reflexivity|]. split; [reflexivity|].
  assert ("report.pdf" <> "") as Hf by discriminate.
  split.
  - assert (grid toy_batch <> []) as Hne by discriminate.
    assert (Forall (fun card =>
                      predictions card <> []
                      /\ primary_diagnosis card ∈ DiagnosisData.known_labels)
                   (grid toy_batch)) as Hall.
    { repeat constructor; try discriminate;
        apply (bool_decide_unpack _); vm_compute; exact I. }
    destruct (export_known_diagnoses Toy.format_1f Toy.PILImage_open fst snd
                Toy.save_png Toy.float_scale Toy.now Toy.can_write Toy.layout
                "report.pdf" toy_batch ∅ Hne Hall Hf)
      as (cases & acc & Hc & Ha & Hn & Hok & _).
    vm_compute in Hc. injection Hc as <-.
    vm_compute in Ha. injection Ha as <-.
    eexists. split; [apply Hok; reflexivity|exact Hn].
  - assert (grid toy_tall_batch <> []) as Hne by discriminate.
    assert (Forall (fun card =>
                      predictions card <> []
                      /\ primary_diagnosis card ∈ DiagnosisData.known_labels)
                   (grid toy_tall_batch)) as Hall.
    { repeat constructor; try discriminate;
        apply (bool_decide_unpack _); vm_compute; exact I. }
    destruct (export_known_diagnoses Toy.format_1f Toy.PILImage_open fst snd
                Toy.save_png Toy.float_scale Toy.now Toy.can_write Toy.layout
                "report.pdf" toy_tall_batch ∅ Hne Hall Hf)
      as (cases & acc & Hc & Ha & _ & _ & Hfail).
    vm_compute in Hc. injection Hc as <-.
    vm_compute in Ha. injection Ha as <-.
    apply (Hfail (Py.LayoutError "Flowable too large on page")). reflexivity.
Defined.

Lemma export_card_without_predictions_witness :
  let st := mkWindow (mkBar 0 1 1 false)
                     [unknown_card Toy.format_1f "blank.png"] [] [] in
  toy_card "blank.png" [] = Py.OK (unknown_card Toy.format_1f "blank.png")
  /\ collect_cases (grid st)
     = Py.Raise (Py.IndexError "list index out of range")
  /\ toy_export "report.pdf" st ∅
     = (show (critical "Error"
                "Failed to export report: list index out of range") st, ∅).
Proof.
  intros st.
  destruct (export_card_without_predictions Toy.format_1f Toy.PILImage_open
              fst snd Toy.save_png Toy.float_scale Toy.now Toy.can_write Toy.layout "report.pdf" st ∅)
    as (Hiff & _ & Hexport).
  assert (exists card, card ∈ grid st /\ predictions card = []) as Hcard.
  { exists (unknown_card Toy.format_1f "blank.png"). split; [by left|done]. }
  assert ("report.pdf" <> "") as Hf by discriminate.
  split; [reflexivity|]. split; [exact (proj1 Hiff Hcard)|].
  exact (Hexport Hcard Hf).
Defined.

Lemma export_report_frame_witness :
  let fs : gmap string (list Flowable) := {[ "notes.txt" := [] ]} in
  "notes.txt" <> "report.pdf"
  /\ grid (toy_export "report.pdf" toy_batch fs).1 = toy_grid
  /\ (toy_export "report.pdf" toy_batch fs).2 !! "notes.txt" = Some [].
Proof.
  intros fs.
  destruct (export_report_frame Toy.format_1f Toy.PILImage_open fst snd
              Toy.save_png Toy.float_scale Toy.now Toy.can_write Toy.layout "report.pdf" toy_batch fs)
    as (Hgrid & _ & _ & _ & Hother & _).
  assert ("notes.txt" <> "report.pdf") as Hne by discriminate.
  split; [exact Hne|]. split; [exact Hgrid|].
  rewrite (Hother "notes.txt" Hne). reflexivity.
Defined.

Lemma report_case_matches_card_witness :
  exists card case,
    toy_card "molar.png" [("pericoronitis", 9 # 10)%Q] = Py.OK card
    /\ prepare_case_data card = Py.OK case
    /\ case_image_path case = "molar.png"
    /\ diagnosis case = "Pericoronitis"
    /\ container card !! 1%nat = Some (Label "🔍 Diagnosis: Pericoronitis")
    /\ container card !! 3%nat
       = Some (GroupBox "" [ Label "🎯 Confidence Score";
                             Label (Toy.format_1f (confidence case) ++ "%") ]).
Proof.
  destruct (toy_card "molar.png" [("pericoronitis", 9 # 10)%Q]) as [card|]
    eqn:Hcard; [|exfalso; vm_compute in Hcard; discriminate Hcard].
  destruct (prepare_case_data card) as [case|] eqn:Hcase;
    [|exfalso; injection Hcard as <-; discriminate Hcase].
  destruct (report_case_matches_card Toy.format_1f "molar.png" _ card case
              Hcard Hcase)
    as (Hpath & Hdiag & _ & Hconf & _ & top & rest & Hpreds & _ & Htitle).
  exists card, case. split; [reflexivity|]. split; [exact Hcase|].
  split; [exact Hpath|].
  injection Hpreds as <- <-.
  split; [exact Htitle|]. split; [|exact Hconf].
  rewrite Hdiag, Htitle. reflexivity.
Defined.

(** *** The pairs of [predict] on the small instance *)


